(** * Bot classification and session reconstruction of the font-scraper analytics core

    A shallow embedding of [filters/BotFilter.js] and of the
    [AnalyticsReconstructor] class, followed by the properties the
    specification states about them.

    Conventions of the embedding.
    - A JavaScript field that may be missing is a [maybe]: [Undefined], [Null]
      or a value of the documented type of the field.
    - Strings are [string]s of bytes (the UTF-8 text).  All patterns of the
      source are ASCII, and an ASCII byte never occurs inside a multi-byte
      sequence, so matching on bytes and on UTF-16 code units agree.
    - Numbers are exact: the time values are integers or NaN ([option Z]), the
      other numbers are rationals with NaN and the two infinities ([num]).
      The rounding of IEEE doubles is not part of the model.
    - A method that can throw returns in [M], which also records the order in
      which the classifier's checks are called. *)

From Stdlib Require Import String Ascii List ZArith QArith Lia Bool.
From Stdlib Require Import Qround DecimalString Permutation Sorted.
Import ListNotations.
Local Open Scope string_scope.
Local Open Scope list_scope.

(* ===================================================================== *)
(** ** JavaScript values *)
(* ===================================================================== *)

Inductive maybe (A : Type) : Type :=
| Undefined
| Null
| Val (a : A).
Arguments Undefined {A}.
Arguments Null {A}.
Arguments Val {A} a.

(** [x || d] for an optional string: the empty string is falsy as well. *)
Definition truthy_str (x : maybe string) : bool :=
  match x with
  | Val s => negb (s =? "")
  | _ => false
  end.

Definition truthy_bool (x : maybe bool) : bool :=
  match x with
  | Val b => b
  | _ => false
  end.

Definition or_str (x y : maybe string) : maybe string :=
  if truthy_str x then x else y.

(** [`${x}`] for a truthy optional string. *)
Definition to_str (x : maybe string) : string :=
  match x with
  | Val s => s
  | Undefined => "undefined"
  | Null => "null"
  end.

(** Numbers. *)
Inductive num : Type :=
| NaN
| Inf (negative : bool)
| Fin (q : Q).

Definition of_Z (z : Z) : num := Fin (inject_Z z).
Definition of_nat (n : nat) : num := of_Z (Z.of_nat n).

Definition Qis_zero (q : Q) : bool := (Qnum q =? 0)%Z.
Definition Qis_neg (q : Q) : bool := (Qnum q <? 0)%Z.
Definition Qltb (a b : Q) : bool := negb (Qle_bool b a).

(** [ToNumber] of an optional number: [undefined] is NaN and [null] is 0. *)
Definition toNumber (x : maybe num) : num :=
  match x with
  | Undefined => NaN
  | Null => of_Z 0
  | Val n => n
  end.

(** [a < b]; false as soon as one side is NaN. *)
Definition num_lt (a b : num) : bool :=
  match a, b with
  | NaN, _ | _, NaN => false
  | Inf true, Inf true => false
  | Inf true, _ => true
  | _, Inf true => false
  | Inf false, _ => false
  | _, Inf false => true
  | Fin x, Fin y => Qltb x y
  end.

Definition num_gt (a b : num) : bool := num_lt b a.
Definition num_ge (a b : num) : bool :=
  match a, b with
  | NaN, _ | _, NaN => false
  | _, _ => negb (num_lt a b)
  end.

(** [x === 0] for an optional number. *)
Definition strict_eq_zero (x : maybe num) : bool :=
  match x with
  | Val (Fin q) => Qis_zero q
  | _ => false
  end.

Definition num_add (a b : num) : num :=
  match a, b with
  | NaN, _ | _, NaN => NaN
  | Inf s, Inf t => if Bool.eqb s t then Inf s else NaN
  | Inf s, _ | _, Inf s => Inf s
  | Fin x, Fin y => Fin (Qred (x + y))
  end.

Definition num_mul (a b : num) : num :=
  match a, b with
  | NaN, _ | _, NaN => NaN
  | Inf s, Inf t => Inf (xorb s t)
  | Inf s, Fin y | Fin y, Inf s =>
      if Qis_zero y then NaN else Inf (xorb s (Qis_neg y))
  | Fin x, Fin y => Fin (Qred (x * y))
  end.

(** [a / b]: 0/0 is NaN and x/0 is an infinity. *)
Definition num_div (a b : num) : num :=
  match a, b with
  | NaN, _ | _, NaN => NaN
  | Inf _, Inf _ => NaN
  | Inf s, Fin y => Inf (xorb s (Qis_neg y))
  | Fin _, Inf _ => of_Z 0
  | Fin x, Fin y =>
      if Qis_zero y then (if Qis_zero x then NaN else Inf (Qis_neg x))
      else Fin (Qred (x / y))
  end.

(** [Math.floor]. *)
Definition num_floor (a : num) : num :=
  match a with
  | Fin q => of_Z (Qfloor q)
  | _ => a
  end.

(** Decimal digits of a natural number. *)
Definition string_of_N (n : N) : string := NilZero.string_of_uint (N.to_uint n).
Definition string_of_nat (n : nat) : string := string_of_N (N.of_nat n).
Definition string_of_Z (z : Z) : string :=
  if (z <? 0)%Z then "-" ++ string_of_N (Z.to_N (- z)) else string_of_N (Z.to_N z).

Definition two_digits (n : N) : string :=
  if (n <? 10)%N then "0" ++ string_of_N n else string_of_N n.

(** The integer nearest to [100 * q] for [q >= 0], the larger one on a tie. *)
Definition hundredths (q : Q) : Z := Qfloor (q * 100 + (1 # 2))%Q.

(** [x.toFixed(2)] (for magnitudes below 10^21, where JavaScript keeps the
    plain decimal notation). *)
Definition toFixed2 (x : num) : string :=
  match x with
  | NaN => "NaN"
  | Inf false => "Infinity"
  | Inf true => "-Infinity"
  | Fin q =>
      let neg := Qis_neg q in
      let n := Z.to_N (hundredths (if neg then (- q)%Q else q)) in
      (if neg then "-" else "")
        ++ string_of_N (n / 100) ++ "." ++ two_digits (n mod 100)
  end.

(** [`${x}`] for an integral number. *)
Definition num_to_string (x : num) : string :=
  match x with
  | NaN => "NaN"
  | Inf false => "Infinity"
  | Inf true => "-Infinity"
  | Fin q => string_of_Z (Qfloor q)
  end.

(** A value that is either a number or a string (a percentage before and
    after [toFixed]). *)
Inductive prim : Type :=
| PNum (n : num)
| PStr (s : string).

Definition truthy_prim (p : prim) : bool :=
  match p with
  | PNum (Fin q) => negb (Qis_zero q)
  | PNum NaN => false
  | PNum (Inf _) => true
  | PStr s => negb (s =? "")
  end.

(* ===================================================================== *)
(** ** Strings and regular expressions *)
(* ===================================================================== *)

(** Canonicalisation of a code unit under the [i] flag: an ASCII letter is
    compared in upper case, and no other character maps onto an ASCII one. *)
Definition canonicalize (c : ascii) : ascii :=
  let n := nat_of_ascii c in
  if (97 <=? n)%nat && (n <=? 122)%nat then ascii_of_nat (n - 32) else c.

Definition toLowerCase_ascii (c : ascii) : ascii :=
  let n := nat_of_ascii c in
  if (65 <=? n)%nat && (n <=? 90)%nat then ascii_of_nat (n + 32) else c.

Fixpoint toLowerCase (s : string) : string :=
  match s with
  | EmptyString => EmptyString
  | String c r => String (toLowerCase_ascii c) (toLowerCase r)
  end.

(** [s.startsWith(p)], comparing with [eqc]. *)
Fixpoint starts_with (eqc : ascii -> ascii -> bool) (p s : string) : bool :=
  match p, s with
  | EmptyString, _ => true
  | String a p', String b s' => eqc a b && starts_with eqc p' s'
  | String _ _, EmptyString => false
  end.

(** Some position of [s] starts with [p]. *)
Fixpoint occurs (eqc : ascii -> ascii -> bool) (p s : string) : bool :=
  starts_with eqc p s
  || match s with
     | EmptyString => false
     | String _ s' => occurs eqc p s'
     end.

Definition startsWith (s p : string) : bool := starts_with Ascii.eqb p s.

(** A regular expression whose source is one literal text, as all those of
    the pattern catalog are (the escapes [\.] and [\/] stand for [.] and [/]). *)
Record RegExp : Type := mkRegExp {
  source : string;
  ignoreCase : bool
}.

Definition eq_code_unit (ignore : bool) (a b : ascii) : bool :=
  if ignore then Ascii.eqb (canonicalize a) (canonicalize b) else Ascii.eqb a b.

(** [pattern.test(s)]. *)
Definition test (pattern : RegExp) (s : string) : bool :=
  occurs (eq_code_unit (ignoreCase pattern)) (source pattern) s.

(** [/a|b|c/i.test(s)]. *)
Definition test_any_i (alternatives : list string) (s : string) : bool :=
  existsb (fun a => test (mkRegExp a true) s) alternatives.

(* ===================================================================== *)
(** ** Exceptions and the record of calls *)
(* ===================================================================== *)

Inductive exn : Type :=
| TypeError (message : string)
| RangeError (message : string).

Inductive result (A : Type) : Type :=
| Ok (a : A)
| Throw (e : exn).
Arguments Ok {A} a.
Arguments Throw {A} e.

(** The methods of the classifier that [isBot] may call. *)
Inductive Call : Type :=
| Call_isBotUserAgent
| Call_isBotIP
| Call_analyzeBehavior.

(** A computation: the calls it made, in order, and how it ended. *)
Definition M (A : Type) : Type := (list Call * result A)%type.

Definition ret {A} (a : A) : M A := ([], Ok a).
Definition throw {A} (e : exn) : M A := ([], Throw e).

Definition bind {A B} (m : M A) (f : A -> M B) : M B :=
  match m with
  | (t, Ok a) => let (t', r) := f a in (t ++ t', r)
  | (t, Throw e) => (t, Throw e)
  end.

(** A call of method [c] whose body ends as [r]. *)
Definition call {A} (c : Call) (r : result A) : M A := ([c], r).

Definition calls {A} (m : M A) : list Call := fst m.
Definition outcome {A} (m : M A) : result A := snd m.

Declare Scope js_scope.
Delimit Scope js_scope with js.
Notation "x <- m ;; k" := (bind m (fun x => k))
  (at level 61, m at next level, right associativity) : js_scope.
Local Open Scope js_scope.

(** [xs.forEach(x => body)] over a state [s] that the body updates. *)
Fixpoint forEach {A S} (body : A -> S -> M S) (xs : list A) (s : S) : M S :=
  match xs with
  | [] => ret s
  | x :: xs' => s' <- body x s ;; forEach body xs' s'
  end.

(** An object used as a map from strings, in insertion order. *)
Fixpoint obj_get {V} (o : list (string * V)) (k : string) : option V :=
  match o with
  | [] => None
  | (k', v) :: o' => if k' =? k then Some v else obj_get o' k
  end.

Fixpoint obj_set {V} (o : list (string * V)) (k : string) (v : V)
  : list (string * V) :=
  match o with
  | [] => [(k, v)]
  | (k', v') :: o' => if k' =? k then (k', v) :: o' else (k', v') :: obj_set o' k v
  end.

(* ===================================================================== *)
(** ** Data model *)
(* ===================================================================== *)

(** The behavioural summary of a session, each field possibly missing. *)
Record Headers : Type := {
  acceptLanguage : maybe string;
  hdr_referer : maybe string
}.

Record Session : Type := {
  requestsPerMinute : maybe num;
  duration : maybe num;
  hasJavaScript : maybe bool;
  accessPattern : maybe string;
  perfectTiming : maybe bool;
  errorRate : maybe num;
  requestCount : maybe num;
  headers : maybe Headers
}.

(** The argument of [new Date(...)]: an ISO-8601 text or a number of
    milliseconds since the epoch. *)
Inductive DateArg : Type :=
| DateString (s : string)
| DateNumber (ms : Z).

(** A log entry, as decoded from the log file. *)
Record LogEntry : Type := {
  timestamp : maybe DateArg;
  ip : maybe string;
  userAgent : maybe string;
  path : maybe string;
  url : maybe string;
  referer : maybe string;
  referrer : maybe string;
  country : maybe string;
  city : maybe string;
  session : maybe Session
}.

(* ===================================================================== *)
(** ** filters/BotFilter.js *)
(* ===================================================================== *)

Module BotFilter.

Record SuspiciousPatterns : Type := {
  rapidRequests : num;
  shortSessionDuration : num;
  noJavaScript : bool;
  perfectLinear : bool
}.

(** The fields of a [BotFilter] instance. *)
Record t : Type := {
  botPatterns : list RegExp;
  botIPRanges : list string;
  suspiciousPatterns : SuspiciousPatterns
}.

Definition i (literal : string) : RegExp := mkRegExp literal true.

(** [constructor()]. *)
Definition constructor : t := {|
  botPatterns := [
    (* Search Engine Crawlers *)
    i "googlebot"; i "bingbot"; i "slurp"; i "duckduckbot"; i "baiduspider";
    i "yandexbot"; i "sogou"; i "exabot";
    (* Social Media Bots *)
    i "facebookexternalhit"; i "twitterbot"; i "linkedinbot"; i "pinterest";
    i "slackbot"; i "telegrambot"; i "whatsapp";
    (* SEO/Analytics Tools *)
    i "ahrefsbot"; i "semrushbot"; i "majestic"; i "mj12bot"; i "dotbot";
    i "rogerbot"; i "screaming frog";
    (* Archive/Web Crawlers *)
    i "archive.org_bot"; i "ia_archiver"; i "wayback";
    (* Generic Bot Indicators *)
    i "bot"; i "crawler"; i "spider"; i "scraper"; i "curl"; i "wget";
    i "python-requests"; i "java/"; i "go-http-client"; i "axios";
    i "node-fetch";
    (* Monitoring/Uptime Services *)
    i "pingdom"; i "uptimerobot"; i "newrelic"; i "datadog"; i "site24x7";
    (* Security Scanners *)
    i "nikto"; i "nessus"; i "qualys"; i "acunetix"; i "nmap";
    (* Cloud/CDN Bots *)
    i "cloudflare"; i "akamai"; i "fastly";
    (* Headless Browsers *)
    i "headlesschrome"; i "phantomjs"; i "selenium"; i "puppeteer";
    i "playwright"
  ];
  botIPRanges := [
    "66.249.64.0/19"; "66.102.0.0/20";
    "40.77.167.0/24"; "207.46.13.0/24";
    "35.0.0.0/8"; "52.0.0.0/8"
  ];
  suspiciousPatterns := {|
    rapidRequests := of_Z 100;
    shortSessionDuration := of_Z 2000;
    noJavaScript := true;
    perfectLinear := true
  |}
|}.

(** The argument of [isBot]. *)
Record Request : Type := {
  req_userAgent : maybe string;
  req_ip : maybe string;
  req_session : maybe Session
}.

(** The result of [analyzeBehavior]. *)
Record Indicators : Type := {
  ind_isBot : bool;
  ind_confidence : Z;
  ind_reasons : list string
}.

(** The result of [isBot]. *)
Record Detection : Type := {
  det_isBot : bool;
  confidence : Z;
  reasons : list string;
  method : maybe string
}.

(** [isBotUserAgent(userAgent)].  With the field typed as an optional
    string, [typeof userAgent !== 'string'] holds exactly for [undefined] and
    [null], which are falsy already. *)
Definition isBotUserAgent (this : t) (userAgent : maybe string) : bool :=
  match userAgent with
  | Val ua =>
      if negb (truthy_str userAgent) then true
      else existsb (fun pattern => test pattern ua) (botPatterns this)
  | _ => true
  end.

Definition knownBotIPs : list string := ["66.249."; "40.77."; "157.55."; "207.46."].

(** [isBotIP(ip)]. *)
Definition isBotIP (this : t) (ip : maybe string) : bool :=
  if negb (truthy_str ip) then false
  else existsb (fun prefix => startsWith (to_str ip) prefix) knownBotIPs.

(** [indicators.confidence += n; indicators.reasons.push(reason)]. *)
Definition flag (n : Z) (reason : string) (indicators : Indicators) : Indicators :=
  {| ind_isBot := ind_isBot indicators;
     ind_confidence := ind_confidence indicators + n;
     ind_reasons := ind_reasons indicators ++ [reason] |}.

Definition when (c : bool) (f : Indicators -> Indicators) (x : Indicators)
  : Indicators :=
  if c then f x else x.

(** [session.headers.<field>]: reading a property of [undefined] or [null]
    throws. *)
Definition headers_of (session : Session) : result Headers :=
  match headers session with
  | Val h => Ok h
  | Undefined =>
      Throw (TypeError "Cannot read properties of undefined (reading 'acceptLanguage')")
  | Null =>
      Throw (TypeError "Cannot read properties of null (reading 'acceptLanguage')")
  end.

(** [analyzeBehavior(session)]. *)
Definition analyzeBehavior (this : t) (session : Session) : result Indicators :=
  let indicators := {| ind_isBot := false; ind_confidence := 0; ind_reasons := [] |} in
  (* Check request rate *)
  let indicators :=
    when (num_gt (toNumber (requestsPerMinute session))
                 (rapidRequests (suspiciousPatterns this)))
         (flag 30 "Excessive request rate") indicators in
  (* Check session duration *)
  let indicators :=
    when (num_lt (toNumber (duration session))
                 (shortSessionDuration (suspiciousPatterns this)))
         (flag 20 "Suspiciously short session") indicators in
  (* Check JavaScript execution *)
  let indicators :=
    when (negb (truthy_bool (hasJavaScript session)))
         (flag 25 "No JavaScript execution detected") indicators in
  (* Check for perfect sequential access pattern *)
  let indicators :=
    when (match accessPattern session with
          | Val p => p =? "sequential"
          | _ => false
          end && truthy_bool (perfectTiming session))
         (flag 25 "Perfect sequential access pattern") indicators in
  (* Check if all requests are successful *)
  let indicators :=
    when (strict_eq_zero (errorRate session)
          && num_gt (toNumber (requestCount session)) (of_Z 50))
         (flag 15 "Zero error rate with high request count") indicators in
  (* Check for missing common headers *)
  match headers_of session with
  | Throw e => Throw e
  | Ok h =>
      let indicators :=
        when (negb (truthy_str (acceptLanguage h)))
             (flag 10 "Missing Accept-Language header") indicators in
      let indicators :=
        when (negb (truthy_str (hdr_referer h))
              && num_gt (toNumber (requestCount session)) (of_Z 5))
             (flag 10 "Missing Referer header on multiple requests") indicators in
      (* Determine if bot based on confidence score *)
      Ok {| ind_isBot := (50 <=? ind_confidence indicators)%Z;
            ind_confidence := ind_confidence indicators;
            ind_reasons := ind_reasons indicators |}
  end.

(** [isBot(request)]. *)
Definition isBot (this : t) (request : Request) : M Detection :=
  let result := {| det_isBot := false; confidence := 0; reasons := []; method := Null |} in
  (* Check user agent *)
  ua <- call Call_isBotUserAgent (Ok (isBotUserAgent this (req_userAgent request))) ;;
  if ua then
    ret {| det_isBot := true; confidence := 95;
           reasons := reasons result ++ ["Bot user-agent detected"];
           method := Val "user-agent" |}
  else
    (* Check IP *)
    ip <- (if truthy_str (req_ip request)
           then call Call_isBotIP (Ok (isBotIP this (req_ip request)))
           else ret false) ;;
    if ip then
      ret {| det_isBot := true; confidence := 85;
             reasons := reasons result ++ ["IP from known bot range"];
             method := Val "ip-range" |}
    else
      (* Check behavioral patterns *)
      match req_session request with
      | Val session =>
          behaviorAnalysis <- call Call_analyzeBehavior (analyzeBehavior this session) ;;
          if ind_isBot behaviorAnalysis then
            ret {| det_isBot := true;
                   confidence := ind_confidence behaviorAnalysis;
                   reasons := ind_reasons behaviorAnalysis;
                   method := Val "behavioral" |}
          else ret result
      | _ => ret result
      end.

(** A bot entry of the result: [{...entry, botDetection: detection}]. *)
Record BotEntry : Type := {
  entry : LogEntry;
  botDetection : Detection
}.

Record Stats : Type := {
  botPercentage : prim;
  detectionMethods : list (string * nat)
}.

Record FilterResult : Type := {
  total : nat;
  legitimate : list LogEntry;
  bots : list BotEntry;
  stats : Stats
}.

(** The body of the [forEach] of [filterLogs], on the [results] object. *)
Definition filterLogs_step (this : t) (e : LogEntry) (results : FilterResult)
  : M FilterResult :=
  detection <- isBot this {| req_userAgent := userAgent e;
                             req_ip := ip e;
                             req_session := session e |} ;;
  if det_isBot detection then
    (* Track detection methods *)
    let method := to_str (or_str (method detection) (Val "unknown")) in
    let seen := match obj_get (detectionMethods (stats results)) method with
                | Some n => n
                | None => 0%nat
                end in
    ret {| total := total results;
           legitimate := legitimate results;
           bots := bots results ++ [{| entry := e; botDetection := detection |}];
           stats := {| botPercentage := botPercentage (stats results);
                       detectionMethods :=
                         obj_set (detectionMethods (stats results)) method (seen + 1)%nat |} |}
  else
    ret {| total := total results;
           legitimate := legitimate results ++ [e];
           bots := bots results;
           stats := stats results |}.

(** [(count / total * 100).toFixed(2)]. *)
Definition percentage (count total : nat) : string :=
  toFixed2 (num_mul (num_div (of_nat count) (of_nat total)) (of_Z 100)).

(** [filterLogs(logEntries)]. *)
Definition filterLogs (this : t) (logEntries : list LogEntry) : M FilterResult :=
  let results := {| total := length logEntries;
                    legitimate := [];
                    bots := [];
                    stats := {| botPercentage := PNum (of_Z 0);
                                detectionMethods := [] |} |} in
  results <- forEach (filterLogs_step this) logEntries results ;;
  ret {| total := total results;
         legitimate := legitimate results;
         bots := bots results;
         stats := {| botPercentage :=
                       PStr (percentage (length (bots results)) (total results));
                     detectionMethods := detectionMethods (stats results) |} |}.

(** [getLegitimateUserAgents()]. *)
Definition getLegitimateUserAgents : list string := [
  (* Chrome *)
  "Mozilla/5.0 (Windows NT 10.0; Win64; x64) AppleWebKit/537.36 (KHTML, like Gecko) Chrome/120.0.0.0 Safari/537.36";
  "Mozilla/5.0 (Macintosh; Intel Mac OS X 10_15_7) AppleWebKit/537.36 (KHTML, like Gecko) Chrome/120.0.0.0 Safari/537.36";
  (* Firefox *)
  "Mozilla/5.0 (Windows NT 10.0; Win64; x64; rv:121.0) Gecko/20100101 Firefox/121.0";
  "Mozilla/5.0 (Macintosh; Intel Mac OS X 10.15; rv:121.0) Gecko/20100101 Firefox/121.0";
  (* Safari *)
  "Mozilla/5.0 (Macintosh; Intel Mac OS X 10_15_7) AppleWebKit/605.1.15 (KHTML, like Gecko) Version/17.1 Safari/605.1.15";
  (* Edge *)
  "Mozilla/5.0 (Windows NT 10.0; Win64; x64) AppleWebKit/537.36 (KHTML, like Gecko) Chrome/120.0.0.0 Safari/537.36 Edg/120.0.0.0";
  (* Mobile *)
  "Mozilla/5.0 (iPhone; CPU iPhone OS 17_1 like Mac OS X) AppleWebKit/605.1.15 (KHTML, like Gecko) Version/17.1 Mobile/15E148 Safari/604.1";
  "Mozilla/5.0 (Linux; Android 14) AppleWebKit/537.36 (KHTML, like Gecko) Chrome/120.0.6099.43 Mobile Safari/537.36"
].

End BotFilter.

(* ===================================================================== *)
(** ** Arrays, sets and own keys *)
(* ===================================================================== *)

(** [Array.prototype.sort(compare)]: a stable sort.  [compare a b] is the
    number the comparator returns, [None] when it is NaN, which [sort]
    reads as 0.  With a comparator that is not a consistent order (it is
    not as soon as it returns NaN) ECMAScript leaves the resulting order to
    the implementation; the model then is the order of a stable insertion. *)
Definition positive_result (r : option Z) : bool :=
  match r with
  | Some d => (0 <? d)%Z
  | None => false
  end.

Fixpoint sort_insert {A} (compare : A -> A -> option Z) (x : A) (l : list A) : list A :=
  match l with
  | [] => [x]
  | y :: l' =>
      if positive_result (compare x y) then y :: sort_insert compare x l'
      else x :: l
  end.

Fixpoint sort {A} (compare : A -> A -> option Z) (l : list A) : list A :=
  match l with
  | [] => []
  | x :: l' => sort_insert compare x (sort compare l')
  end.

(** [a - b] on time values and counts. *)
Definition minus (a b : option Z) : option Z :=
  match a, b with
  | Some x, Some y => Some (x - y)%Z
  | _, _ => None
  end.

(** [a > b] for a difference of time values and a number of milliseconds. *)
Definition exceeds (a : option Z) (b : Z) : bool :=
  match a with
  | Some x => (b <? x)%Z
  | None => false
  end.

(** [set.add(x)] on a [Set] of strings, kept in insertion order. *)
Definition set_add (set : list string) (x : string) : list string :=
  if existsb (String.eqb x) set then set else set ++ [x].

(** The keys that every object inherits from [Object.prototype]. *)
Definition Object_prototype_keys : list string :=
  ["constructor"; "__proto__"; "hasOwnProperty"; "isPrototypeOf";
   "propertyIsEnumerable"; "toLocaleString"; "toString"; "valueOf";
   "__defineGetter__"; "__defineSetter__"; "__lookupGetter__";
   "__lookupSetter__"].

Definition inherited (k : string) : bool :=
  existsb (String.eqb k) Object_prototype_keys.

Definition digit_of (c : ascii) : option N :=
  let n := N_of_ascii c in
  if (48 <=? n)%N && (n <=? 57)%N then Some (n - 48)%N else None.

Fixpoint parse_digits (acc : N) (s : string) : option N :=
  match s with
  | EmptyString => Some acc
  | String c r =>
      match digit_of c with
      | Some d => parse_digits (acc * 10 + d)%N r
      | None => None
      end
  end.

(** The array index a key denotes, if it is one: a canonical decimal numeral
    below 2^32 - 1. *)
Definition array_index (k : string) : option N :=
  match k with
  | EmptyString => None
  | _ =>
      match parse_digits 0 k with
      | Some n =>
          if (string_of_N n =? k) && (n <? 4294967295)%N then Some n else None
      | None => None
      end
  end.

Definition is_array_index (k : string) : bool :=
  match array_index k with
  | Some _ => true
  | None => false
  end.

Definition compare_index {V} (a b : string * V) : option Z :=
  match array_index (fst a), array_index (fst b) with
  | Some x, Some y => Some (Z.of_N x - Z.of_N y)%Z
  | _, _ => None
  end.

(** [Object.entries(o)]: the array-index keys in ascending order, then the
    other keys in the order of their creation. *)
Definition Object_entries {V} (o : list (string * V)) : list (string * V) :=
  sort compare_index (filter (fun kv => is_array_index (fst kv)) o)
  ++ filter (fun kv => negb (is_array_index (fst kv))) o.

Definition Object_values {V} (o : list (string * V)) : list V :=
  map snd (Object_entries o).

(** [xs.slice(0, n)]. *)
Definition slice0 {A} (n : nat) (xs : list A) : list A := firstn n xs.

(* ===================================================================== *)
(** ** The URL constructor *)
(* ===================================================================== *)

(** What the URL Standard fixes for [new URL(s)] without a base and is used
    here: leading and trailing C0 controls and spaces are stripped, tabs and
    newlines are removed, and the rest must start with a scheme (a letter,
    then letters, digits, [+], [-] or [.], then [:]), or the constructor
    throws. *)
Definition is_c0_or_space (c : ascii) : bool := (nat_of_ascii c <=? 32)%nat.

Definition is_tab_or_newline (c : ascii) : bool :=
  let n := nat_of_ascii c in
  (n =? 9)%nat || (n =? 10)%nat || (n =? 13)%nat.

Definition is_alpha (c : ascii) : bool :=
  let n := nat_of_ascii c in
  ((65 <=? n)%nat && (n <=? 90)%nat) || ((97 <=? n)%nat && (n <=? 122)%nat).

Definition is_scheme_char (c : ascii) : bool :=
  let n := nat_of_ascii c in
  is_alpha c || ((48 <=? n)%nat && (n <=? 57)%nat)
  || (n =? 43)%nat || (n =? 45)%nat || (n =? 46)%nat.

Fixpoint strip_leading (s : string) : string :=
  match s with
  | String c r => if is_c0_or_space c then strip_leading r else s
  | EmptyString => EmptyString
  end.

Fixpoint remove_tab_newline (s : string) : string :=
  match s with
  | String c r =>
      if is_tab_or_newline c then remove_tab_newline r
      else String c (remove_tab_newline r)
  | EmptyString => EmptyString
  end.

Fixpoint scheme_rest (s : string) : bool :=
  match s with
  | String c r =>
      if (nat_of_ascii c =? 58)%nat then true
      else if is_scheme_char c then scheme_rest r
      else false
  | EmptyString => false
  end.

Definition has_scheme (s : string) : bool :=
  match remove_tab_newline (strip_leading s) with
  | String c r => is_alpha c && scheme_rest r
  | EmptyString => false
  end.

(* ===================================================================== *)
(** ** The AnalyticsReconstructor class *)
(* ===================================================================== *)

Module AnalyticsReconstructor.

(** The fields of an instance. *)
Record t : Type := {
  botFilter : option BotFilter.t;
  sessionTimeout : Z
}.

(** [constructor(botFilter)]. *)
Definition constructor (botFilter : option BotFilter.t) : t :=
  {| botFilter := botFilter; sessionTimeout := 30 * 60 * 1000 |}.

(** One element of a visitor's list in [_calculateSessions]. *)
Record Visit : Type := {
  v_timestamp : option Z;
  v_path : maybe string
}.

Record Visitors : Type := {
  byIP : nat;
  byFingerprint : nat;
  recommended : nat
}.

Record Sessions : Type := {
  ses_total : nat;
  avgDuration : num;
  avgDurationFormatted : string;
  avgPagesPerSession : string;
  bounceRate : string
}.

(** An entry of the [referrers] object while it is filled. *)
Record ReferrerData : Type := {
  count : nat;
  uniqueVisitors : list string
}.

Record ReferrerRow : Type := {
  row_referrer : string;
  visits : nat;
  row_uniqueVisitors : nat
}.

Record Referrers : Type := {
  ref_total : nat;
  top : list ReferrerRow;
  all : list ReferrerRow
}.

Record DeviceCounts : Type := {
  mobile : nat;
  tablet : nat;
  desktop : nat;
  unknown : nat
}.

Record DevicePercentages : Type := {
  pct_mobile : string;
  pct_tablet : string;
  pct_desktop : string;
  pct_unknown : string
}.

Record Devices : Type := {
  counts : DeviceCounts;
  percentages : DevicePercentages
}.

Record Overview : Type := {
  totalRequests : nat;
  totalBots : nat;
  botPercentage : prim
}.

(** The part of the result of [processLogs] that is modelled.  The source
    also fills [overview.dateRange], [impressions], [pages], [browsers],
    [geography] and [timeline] from the same legitimate entries. *)
Record AnalyticsResult : Type := {
  overview : Overview;
  visitors : Visitors;
  sessions : Sessions;
  referrers : Referrers;
  devices : Devices
}.

Inductive DeviceType : Type := Mobile | Tablet | Desktop | UnknownDevice.

(** The session walk of [_calculateSessions] from index 1 on: [prev] is
    [visits[i - 1].timestamp]; the result lists, in the order of the pushes,
    the duration and the page count of every session. *)
Fixpoint walk (timeout : Z) (prev sessionStart : option Z) (sessionPages : nat)
  (rest : list Visit) : list (option Z * nat) :=
  match rest with
  | [] => [(minus prev sessionStart, sessionPages)]
  | v :: rest' =>
      let timeDiff := minus (v_timestamp v) prev in
      if exceeds timeDiff timeout then
        (* New session *)
        (minus prev sessionStart, sessionPages)
          :: walk timeout (v_timestamp v) (v_timestamp v) 1 rest'
      else walk timeout (v_timestamp v) sessionStart (S sessionPages) rest'
  end.

Definition compare_timestamp (a b : Visit) : option Z :=
  minus (v_timestamp a) (v_timestamp b).

(** The body of [Object.values(visitorSessions).forEach]: the sessions of
    one visitor.  A list of visits is created with its first visit, so it is
    never empty. *)
Definition sessions_of (timeout : Z) (visits : list Visit) : list (option Z * nat) :=
  match sort compare_timestamp visits with
  | [] => []
  | first :: rest => walk timeout (v_timestamp first) (v_timestamp first) 1 rest
  end.

Definition num_of_time (d : option Z) : num :=
  match d with
  | Some z => of_Z z
  | None => NaN
  end.

(** [_average(numbers)]. *)
Definition _average (numbers : list num) : num :=
  if (length numbers =? 0)%nat then of_Z 0
  else num_div (fold_left num_add numbers (of_Z 0)) (of_nat (length numbers)).

(** [_formatDuration(ms)]. *)
Definition _formatDuration (ms : num) : string :=
  match ms with
  | Fin q =>
      let seconds := Qfloor (q / 1000) in
      let minutes := (seconds / 60)%Z in
      let hours := (minutes / 60)%Z in
      if (0 <? hours)%Z then
        string_of_Z hours ++ "h " ++ string_of_Z (Z.rem minutes 60) ++ "m"
      else if (0 <? minutes)%Z then
        string_of_Z minutes ++ "m " ++ string_of_Z (Z.rem seconds 60) ++ "s"
      else string_of_Z seconds ++ "s"
  | NaN => "NaNs"
  | Inf false => "Infinityh NaNm"
  | Inf true => "-Infinitys"
  end.

(** [_calculateBounceRate(pagesPerSession)]. *)
Definition _calculateBounceRate (pagesPerSession : list nat) : string :=
  let bounces := length (filter (fun pages => (pages =? 1)%nat) pagesPerSession) in
  BotFilter.percentage bounces (length pagesPerSession).

(** [_detectDevice(userAgent)]. *)
Definition _detectDevice (userAgent : string) : DeviceType :=
  if test_any_i ["mobile"; "android"; "iphone"; "ipod"; "blackberry"; "iemobile"] userAgent
  then Mobile
  else if test_any_i ["tablet"; "ipad"] userAgent then Tablet
  else if test_any_i ["mozilla"; "chrome"; "safari"; "firefox"; "opera"; "edge"] userAgent
  then Desktop
  else UnknownDevice.

(** [devices[deviceType]++]. *)
Definition count_device (d : DeviceType) (c : DeviceCounts) : DeviceCounts :=
  match d with
  | Mobile => {| mobile := S (mobile c); tablet := tablet c;
                 desktop := desktop c; unknown := unknown c |}
  | Tablet => {| mobile := mobile c; tablet := S (tablet c);
                 desktop := desktop c; unknown := unknown c |}
  | Desktop => {| mobile := mobile c; tablet := tablet c;
                  desktop := S (desktop c); unknown := unknown c |}
  | UnknownDevice => {| mobile := mobile c; tablet := tablet c;
                        desktop := desktop c; unknown := S (unknown c) |}
  end.

(** [_calculateDevices(entries)].  The lower-casing is the ASCII one: the
    case mapping of other characters is not modelled. *)
Definition _calculateDevices (entries : list LogEntry) : Devices :=
  let devices :=
    fold_left
      (fun devices e =>
         let ua := toLowerCase (to_str (or_str (userAgent e) (Val ""))) in
         count_device (_detectDevice ua) devices)
      entries
      {| mobile := 0; tablet := 0; desktop := 0; unknown := 0 |} in
  let total := length entries in
  {| counts := devices;
     percentages := {|
       pct_mobile := BotFilter.percentage (mobile devices) total;
       pct_tablet := BotFilter.percentage (tablet devices) total;
       pct_desktop := BotFilter.percentage (desktop devices) total;
       pct_unknown := BotFilter.percentage (unknown devices) total |} |}.

(** [new Date(x).getTime()]: [None] is NaN (an invalid date).  [Date_parse]
    is [Date.parse] on texts. *)
Definition getTime (Date_parse : string -> option Z) (x : maybe DateArg) : option Z :=
  match x with
  | Undefined => None
  | Null => Some 0%Z
  | Val (DateString s) => Date_parse s
  | Val (DateNumber ms) =>
      if (Z.abs ms <=? 8640000000000000)%Z then Some ms else None
  end.

Section Runtime.

(** [crypto.createHash('md5').update(s).digest('hex')]. *)
Variable md5_hex : string -> string.

(** [Date.parse(s)], [None] when it is NaN. *)
Variable Date_parse : string -> option Z.

(** [new URL(s).hostname] for a text that starts with a scheme, [None] when
    the constructor throws. *)
Variable URL_hostname : string -> option string.

(** [new URL(s).hostname], [None] when the constructor throws. *)
Definition new_URL_hostname (s : string) : option string :=
  if has_scheme s then URL_hostname s else None.

(** [_createFingerprint(ip, userAgent)]. *)
Definition _createFingerprint (ip userAgent : maybe string) : string :=
  let combined :=
    (to_str (or_str ip (Val "unknown")) ++ "|"
     ++ to_str (or_str userAgent (Val "unknown")))%string in
  md5_hex combined.

(** [_extractHostname(url)], on the text that [_calculateReferrers] passes. *)
Definition _extractHostname (url : string) : string :=
  if (url =? "") || (url =? "Direct") then "Direct"
  else
    match new_URL_hostname url with
    | Some hostname => hostname
    | None => url
    end.

(** [_calculateVisitors(entries)]. *)
Definition _calculateVisitors (entries : list LogEntry) : Visitors :=
  let '(uniqueIPs, uniqueFingerprints) :=
    fold_left
      (fun '(uniqueIPs, uniqueFingerprints) e =>
         (if truthy_str (ip e) then set_add uniqueIPs (to_str (ip e)) else uniqueIPs,
          set_add uniqueFingerprints (_createFingerprint (ip e) (userAgent e))))
      entries ([], []) in
  {| byIP := length uniqueIPs;
     byFingerprint := length uniqueFingerprints;
     recommended := length uniqueFingerprints |}.

(** The first [forEach] of [_calculateSessions]: the visits of every
    visitor, keyed by fingerprint.  The keys are digests, 32 hexadecimal
    digits: none is an array index or an inherited key. *)
Definition group_visits (entries : list LogEntry) : list (string * list Visit) :=
  fold_left
    (fun visitorSessions e =>
       let fingerprint := _createFingerprint (ip e) (userAgent e) in
       let timestamp := getTime Date_parse (timestamp e) in
       let visit := {| v_timestamp := timestamp; v_path := or_str (path e) (url e) |} in
       match obj_get visitorSessions fingerprint with
       | None => obj_set visitorSessions fingerprint [visit]
       | Some visits => obj_set visitorSessions fingerprint (visits ++ [visit])
       end)
    entries [].

(** The sessions of all visitors, in the order in which [_calculateSessions]
    pushes them on [sessionDurations] and [pagesPerSession]. *)
Definition all_sessions (this : t) (entries : list LogEntry) : list (option Z * nat) :=
  flat_map (sessions_of (sessionTimeout this)) (map snd (group_visits entries)).

(** [_calculateSessions(entries)]. *)
Definition _calculateSessions (this : t) (entries : list LogEntry) : Sessions :=
  let closed := all_sessions this entries in
  let totalSessions := length closed in
  let sessionDurations := map (fun s => num_of_time (fst s)) closed in
  let pagesPerSession := map snd closed in
  {| ses_total := totalSessions;
     avgDuration := _average sessionDurations;
     avgDurationFormatted := _formatDuration (_average sessionDurations);
     avgPagesPerSession := toFixed2 (_average (map of_nat pagesPerSession));
     bounceRate := _calculateBounceRate pagesPerSession |}.

(** The bucket of an entry in [_calculateReferrers]. *)
Definition referrer_bucket (e : LogEntry) : string :=
  let referrer := to_str (or_str (or_str (referer e) (referrer e)) (Val "Direct")) in
  _extractHostname referrer.

(** The body of the [forEach] of [_calculateReferrers].  [referrers[hostname]]
    of an inherited key is a truthy value of [Object.prototype] that has no
    [uniqueVisitors]: the call of [add] on it throws. *)
Definition referrers_step (e : LogEntry) (referrers : list (string * ReferrerData))
  : M (list (string * ReferrerData)) :=
  let hostname := referrer_bucket e in
  match obj_get referrers hostname with
  | Some data =>
      ret (obj_set referrers hostname
             {| count := S (count data);
                uniqueVisitors :=
                  set_add (uniqueVisitors data)
                          (_createFingerprint (ip e) (userAgent e)) |})
  | None =>
      if inherited hostname then
        throw (TypeError "Cannot read properties of undefined (reading 'add')")
      else
        ret (obj_set referrers hostname
               {| count := 1;
                  uniqueVisitors := [_createFingerprint (ip e) (userAgent e)] |})
  end.

Definition compare_visits_desc (a b : ReferrerRow) : option Z :=
  Some (Z.of_nat (visits b) - Z.of_nat (visits a))%Z.

(** [_calculateReferrers(entries)]. *)
Definition _calculateReferrers (entries : list LogEntry) : M Referrers :=
  referrers <- forEach referrers_step entries [] ;;
  let sorted :=
    sort compare_visits_desc
      (map (fun '(referrer, data) =>
              {| row_referrer := referrer;
                 visits := count data;
                 row_uniqueVisitors := length (uniqueVisitors data) |})
           (Object_entries referrers)) in
  ret {| ref_total := length sorted; top := slice0 10 sorted; all := sorted |}.

(** [_getDateRange], [_calculatePageViews] and [_calculateTimeline] are not
    modelled further than this: they call [toISOString()] on the [Date] of
    the entries ([_calculatePageViews] on that of every entry), which throws
    on an invalid date. *)
Definition toISOString_all (entries : list LogEntry) : M unit :=
  if forallb (fun e => match getTime Date_parse (timestamp e) with
                       | Some _ => true
                       | None => false
                       end) entries
  then ret tt
  else throw (RangeError "Invalid time value").

(** [processLogs(logEntries)]. *)
Definition processLogs (this : t) (logEntries : list LogEntry) : M AnalyticsResult :=
  (* Filter out bots *)
  filteredLogs <-
    match botFilter this with
    | Some filter =>
        r <- BotFilter.filterLogs filter logEntries ;;
        ret (BotFilter.legitimate r, length (BotFilter.bots r),
             Some (BotFilter.botPercentage (BotFilter.stats r)))
    | None => ret (logEntries, 0%nat, None)
    end ;;
  let '(legitimateEntries, bots_length, stats_botPercentage) := filteredLogs in
  (* Calculate metrics *)
  _ <- toISOString_all legitimateEntries ;;
  referrers <- _calculateReferrers legitimateEntries ;;
  ret {| overview := {|
           totalRequests := length legitimateEntries;
           totalBots := bots_length;
           botPercentage :=
             match stats_botPercentage with
             | Some p => if truthy_prim p then p else PNum (of_Z 0)
             | None => PNum (of_Z 0)
             end |};
         visitors := _calculateVisitors legitimateEntries;
         sessions := _calculateSessions this legitimateEntries;
         referrers := referrers;
         devices := _calculateDevices legitimateEntries |}.

End Runtime.



(** [_detectBrowser(userAgent)]. *)
Definition _detectBrowser (userAgent : string) : string :=
  if test_any_i ["edg"] userAgent then "Edge"
  else if test_any_i ["chrome"] userAgent then "Chrome"
  else if test_any_i ["firefox"] userAgent then "Firefox"
  else if test_any_i ["safari"] userAgent && negb (test_any_i ["chrome"] userAgent)
  then "Safari"
  else if test_any_i ["opera"; "opr"] userAgent then "Opera"
  else if test_any_i ["msie"; "trident"] userAgent then "Internet Explorer"
  else "Unknown".




End AnalyticsReconstructor.

(* ===================================================================== *)
(** ** archive/WaybackFetcher.js: the helpers on snapshots *)
(* ===================================================================== *)

Module WaybackFetcher.

(** A row of the CDX answer, as [getSnapshots] builds it. *)
Record Snapshot : Type := {
  snap_timestamp : string;
  original : string;
  statuscode : string;
  mimetype : string
}.

Fixpoint skip (n : nat) (s : string) : string :=
  match n, s with
  | O, _ => s
  | S n', String _ r => skip n' r
  | S _, EmptyString => EmptyString
  end.

Fixpoint take (n : nat) (s : string) : string :=
  match n, s with
  | O, _ => EmptyString
  | S n', String c r => String c (take n' r)
  | S _, EmptyString => EmptyString
  end.

(** [s.substring(from, to)] for [from <= to] (on the units of the text:
    the time stamps are digits). *)
Definition substring (from to : nat) (s : string) : string :=
  take (to - from) (skip from s).

(** [x || '00'] on a text. *)
Definition or_00 (x : string) : string := if x =? "" then "00" else x.

(** The text that [_parseTimestamp(timestamp)] gives to [new Date]. *)
Definition timestamp_text (timestamp : string) : string :=
  let year := substring 0 4 timestamp in
  let month := substring 4 6 timestamp in
  let day := substring 6 8 timestamp in
  let hour := or_00 (substring 8 10 timestamp) in
  let minute := or_00 (substring 10 12 timestamp) in
  let second := or_00 (substring 12 14 timestamp) in
  (year ++ "-" ++ month ++ "-" ++ day ++ "T" ++ hour ++ ":" ++ minute ++ ":"
   ++ second ++ "Z")%string.

(** The time value of [_parseTimestamp(timestamp)], [None] for an invalid
    date. *)
Definition _parseTimestamp (Date_parse : string -> option Z) (timestamp : string)
  : option Z :=
  Date_parse (timestamp_text timestamp).

(** [_buildArchiveUrl(timestamp, url)]. *)
Definition _buildArchiveUrl (baseUrl timestamp url : string) : string :=
  (baseUrl ++ "/web/" ++ timestamp ++ "id_/" ++ url)%string.

(** [Math.abs(a - b)] on time values. *)
Definition abs_diff (a b : option Z) : option Z :=
  match minus a b with
  | Some d => Some (Z.abs d)
  | None => None
  end.

(** [a < b], false as soon as one side is NaN. *)
Definition less (a b : option Z) : bool :=
  match a, b with
  | Some x, Some y => (x <? y)%Z
  | _, _ => false
  end.

(** [_findClosestSnapshot(snapshots, targetDate)]; [None] is [null]. *)
Definition _findClosestSnapshot (Date_parse : string -> option Z)
  (snapshots : list Snapshot) (targetDate : option Z) : option Snapshot :=
  match snapshots with
  | [] => None
  | first :: rest =>
      Some (fold_left
              (fun closest snapshot =>
                 let snapshotDate := _parseTimestamp Date_parse (snap_timestamp snapshot) in
                 let closestDate := _parseTimestamp Date_parse (snap_timestamp closest) in
                 let snapshotDiff := abs_diff snapshotDate targetDate in
                 let closestDiff := abs_diff closestDate targetDate in
                 if less snapshotDiff closestDiff then snapshot else closest)
              rest first)
  end.

End WaybackFetcher.

(* ===================================================================== *)
(** ** Sample data *)
(* ===================================================================== *)

Definition chrome_ua : string :=
  "Mozilla/5.0 (Windows NT 10.0; Win64; x64) Chrome/120.0.0.0".

(** An entry that carries only what the examples vary. *)
Definition sample_entry (time : maybe DateArg) (address agent ref : maybe string)
  (summary : maybe Session) : LogEntry :=
  {| timestamp := time; ip := address; userAgent := agent;
     path := Val "/"; url := Undefined;
     referer := ref; referrer := Undefined;
     country := Undefined; city := Undefined;
     session := summary |}.

(** [session: {}]. *)
Definition empty_session : Session :=
  {| requestsPerMinute := Undefined; duration := Undefined;
     hasJavaScript := Undefined; accessPattern := Undefined;
     perfectTiming := Undefined; errorRate := Undefined;
     requestCount := Undefined; headers := Undefined |}.

(** A browser request whose entry carries a session object with no
    [headers] field. *)
Definition entry_without_headers : LogEntry :=
  sample_entry (Val (DateString "2024-01-15T10:00:00Z")) (Val "192.168.1.1")
    (Val chrome_ua) Undefined (Val empty_session).

(** The reconstructor of [FontScraper]: [new AnalyticsReconstructor(new BotFilter())]. *)
Definition reconstructor : AnalyticsReconstructor.t :=
  AnalyticsReconstructor.constructor (Some BotFilter.constructor).

(* ===================================================================== *)
(** ** The properties, in the words of the specification *)
(* ===================================================================== *)

(** ["{x or 'unknown'}"]: the text that stands for an identity field. *)
Definition or_unknown (x : maybe string) : string :=
  match x with
  | Val s => if s =? "" then "unknown" else s
  | _ => "unknown"
  end.

(** The request that [filterLogs] builds from an entry. *)
Definition request_of (e : LogEntry) : BotFilter.Request :=
  {| BotFilter.req_userAgent := userAgent e;
     BotFilter.req_ip := ip e;
     BotFilter.req_session := session e |}.

(** The entry is classified, and as a bot. *)
Definition classified_bot (this : BotFilter.t) (e : LogEntry) : bool :=
  match outcome (BotFilter.isBot this (request_of e)) with
  | Ok detection => BotFilter.det_isBot detection
  | Throw _ => false
  end.


(** A session summary carries its [headers] object. *)
Definition has_headers (s : Session) : bool :=
  match headers s with
  | Val _ => true
  | _ => false
  end.






(** The visit that [_calculateSessions] records for an entry. *)
Definition visit_of (Date_parse : string -> option Z) (e : LogEntry)
  : AnalyticsReconstructor.Visit :=
  {| AnalyticsReconstructor.v_timestamp :=
       AnalyticsReconstructor.getTime Date_parse (timestamp e);
     AnalyticsReconstructor.v_path := or_str (path e) (url e) |}.

(** The entry belongs to the visitor of fingerprint [fp]. *)
Definition visitor_is (md5_hex : string -> string) (fp : string) (e : LogEntry) : bool :=
  AnalyticsReconstructor._createFingerprint md5_hex (ip e) (userAgent e) =? fp.

(** The events of one visitor, in the order of the log. *)
Definition events_of (md5_hex : string -> string) (Date_parse : string -> option Z)
  (fp : string) (entries : list LogEntry) : list AnalyticsReconstructor.Visit :=
  map (visit_of Date_parse) (filter (visitor_is md5_hex fp) entries).

(** The entry has a valid date. *)
Definition valid_time (Date_parse : string -> option Z) (e : LogEntry) : bool :=
  match AnalyticsReconstructor.getTime Date_parse (timestamp e) with
  | Some _ => true
  | None => false
  end.

(** The time value of an entry with a valid date. *)
Definition entry_time (Date_parse : string -> option Z) (e : LogEntry) : Z :=
  match AnalyticsReconstructor.getTime Date_parse (timestamp e) with
  | Some t => t
  | None => 0%Z
  end.

(** An event with a valid time value. *)
Definition event (x : Z * maybe string) : AnalyticsReconstructor.Visit :=
  {| AnalyticsReconstructor.v_timestamp := Some (fst x);
     AnalyticsReconstructor.v_path := snd x |}.

(** Consecutive events of a run are at most [timeout] apart. *)
Fixpoint gaps_within (timeout : Z) (run : list Z) : Prop :=
  match run with
  | a :: (b :: _) as rest => (b - a <= timeout)%Z /\ gaps_within timeout rest
  | _ => True
  end.

(** Between two consecutive runs the gap is greater than [timeout]. *)
Fixpoint separated (timeout : Z) (runs : list (list Z)) : Prop :=
  match runs with
  | r1 :: (r2 :: _) as rest =>
      (timeout < hd 0 r2 - last r1 0)%Z /\ separated timeout rest
  | _ => True
  end.

(** What is reported of a session: its duration and its page count. *)
Definition summary (run : list Z) : option Z * nat :=
  (Some (last run 0 - hd 0 run)%Z, length run).

(** Three events of one visitor at t = 0, 10 min and 45 min. *)
Definition three_events (address agent : maybe string) : list LogEntry :=
  [ sample_entry (Val (DateNumber 0)) address agent Undefined Undefined;
    sample_entry (Val (DateNumber 600000)) address agent Undefined Undefined;
    sample_entry (Val (DateNumber 2700000)) address agent Undefined Undefined ].


(** The sessions with exactly one page among the page counts [pages]. *)
Definition bounces (pages : list nat) : nat := count_occ Nat.eq_dec pages 1%nat.




(** A stand-in for the URL parser on texts with a scheme, for examples whose
    referers have none. *)
Definition no_hostname (s : string) : option string := None.

(** A stand-in for the digest in examples: the text itself. *)
Definition plain_digest (s : string) : string := s.

(** The second entry of the test log of the repository: its referer is [/]. *)
Definition entry_referer_slash : LogEntry :=
  {| timestamp := Val (DateString "2024-01-15T10:01:00Z");
     ip := Val "192.168.1.1"; userAgent := Val chrome_ua;
     path := Val "/about"; url := Undefined;
     referer := Val "/"; referrer := Undefined;
     country := Undefined; city := Undefined; session := Undefined |}.


(** The test log of the repository: two requests of one browser and one
    of Googlebot. *)
Definition test_log : list LogEntry :=
  [ {| timestamp := Val (DateString "2024-01-15T10:00:00Z");
       ip := Val "192.168.1.1"; userAgent := Val chrome_ua;
       path := Val "/"; url := Undefined;
       referer := Val "https://google.com"; referrer := Undefined;
       country := Undefined; city := Undefined; session := Undefined |};
    entry_referer_slash;
    {| timestamp := Val (DateString "2024-01-15T10:02:00Z");
       ip := Val "66.249.64.1"; userAgent := Val "Googlebot/2.1";
       path := Val "/sitemap.xml"; url := Undefined;
       referer := Undefined; referrer := Undefined;
       country := Undefined; city := Undefined; session := Undefined |} ].

(** A session summary of a fast client that sends no Referer header. *)
Definition fast_session : Session :=
  {| requestsPerMinute := Val (of_Z 150);
     duration := Val (of_Z 1000);
     hasJavaScript := Val true;
     accessPattern := Undefined;
     perfectTiming := Undefined;
     errorRate := Undefined;
     requestCount := Val (of_Z 10);
     headers := Val {| acceptLanguage := Val "en-US"; hdr_referer := Undefined |} |}.

(** Two entries without referer and one whose referer is [/]. *)
Definition referer_log : list LogEntry :=
  [ sample_entry (Val (DateNumber 0)) (Val "192.168.1.1") (Val chrome_ua)
      Undefined Undefined;
    entry_referer_slash;
    sample_entry (Val (DateNumber 60000)) (Val "192.168.1.2") (Val chrome_ua)
      (Val "") Undefined ].

(** The methods by which [isBot] flags a bot. *)
Definition detection_methods : list string := ["user-agent"; "ip-range"; "behavioral"].

(** The total of the counts kept in an object. *)
Definition sum_counts (o : list (string * nat)) : nat :=
  fold_right (fun kv acc => (snd kv + acc)%nat) 0%nat o.

(** The key of [detectionMethods] under which a bot entry is counted. *)
Definition method_label (b : BotFilter.BotEntry) : string :=
  to_str (or_str (BotFilter.method (BotFilter.botDetection b)) (Val "unknown")).

Definition method_is (m : string) (b : BotFilter.BotEntry) : bool :=
  method_label b =? m.

(** [detectionMethods] counts, under each method, the bot entries found by
    that method. *)
Definition methods_counted (results : BotFilter.FilterResult) : Prop :=
  forall m,
    obj_get (BotFilter.detectionMethods (BotFilter.stats results)) m
    = if existsb (method_is m) (BotFilter.bots results)
      then Some (length (filter (method_is m) (BotFilter.bots results)))
      else None.

(** The classifier throws on the entry: neither the user-agent check nor the
    IP check flags it, and its session carries no [headers] object. *)
Definition unclassifiable (this : BotFilter.t) (e : LogEntry) : Prop :=
  BotFilter.isBotUserAgent this (userAgent e) = false
  /\ BotFilter.isBotIP this (ip e) = false
  /\ exists s, session e = Val s /\ has_headers s = false.

(** The pages of a list of sessions, all together. *)
Definition sum_pages (sessions : list (option Z * nat)) : nat :=
  fold_right (fun s acc => (snd s + acc)%nat) 0%nat sessions.

(** The events kept in the groups of the visitors, all together. *)
Definition sum_events (groups : list (string * list AnalyticsReconstructor.Visit)) : nat :=
  fold_right (fun g acc => (length (snd g) + acc)%nat) 0%nat groups.

(** The visits of the rows of the referrers, all together. *)
Definition sum_visits (rows : list AnalyticsReconstructor.ReferrerRow) : nat :=
  fold_right (fun r acc => (AnalyticsReconstructor.visits r + acc)%nat) 0%nat rows.

(** The four counts of the devices, all together. *)
Definition sum_devices (c : AnalyticsReconstructor.DeviceCounts) : nat :=
  (AnalyticsReconstructor.mobile c + AnalyticsReconstructor.tablet c
   + AnalyticsReconstructor.desktop c + AnalyticsReconstructor.unknown c)%nat.

(** A stand-in for [Date.parse] in examples whose dates are numbers. *)
Definition no_date (s : string) : option Z := None.

(** The counts kept in the [referrers] object, all together. *)
Definition sum_data (o : list (string * AnalyticsReconstructor.ReferrerData)) : nat :=
  fold_right (fun kv acc => (AnalyticsReconstructor.count (snd kv) + acc)%nat) 0%nat o.

(** A bucket has at least one visitor and no more visitors than entries. *)
Definition visitors_within (data : AnalyticsReconstructor.ReferrerData) : Prop :=
  (1 <= length (AnalyticsReconstructor.uniqueVisitors data)
   <= AnalyticsReconstructor.count data)%nat.

(** No key of the object is a key inherited from [Object.prototype]. *)
Definition own_keys_only {V} (o : list (string * V)) : Prop :=
  forall k, inherited k = true -> obj_get o k = None.





(** A stand-in for [Date.parse] in examples: the day of a text
    [YYYY-MM-DD...], as the number [YYYYMMDD]. *)
Definition date_number (s : string) : option Z :=
  match parse_digits 0 (WaybackFetcher.substring 0 4 s ++ WaybackFetcher.substring 5 7 s
                        ++ WaybackFetcher.substring 8 10 s) with
  | Some n => Some (Z.of_N n)
  | None => None
  end.

(** A snapshot of the archive taken at [stamp]. *)
Definition snapshot_at (stamp : string) : WaybackFetcher.Snapshot :=
  {| WaybackFetcher.snap_timestamp := stamp;
     WaybackFetcher.original := "http://example.com/";
     WaybackFetcher.statuscode := "200";
     WaybackFetcher.mimetype := "text/html" |}.

(** The day of a snapshot under [date_number]. *)
Definition snapshot_day (s : WaybackFetcher.Snapshot) : Z :=
  match WaybackFetcher._parseTimestamp date_number (WaybackFetcher.snap_timestamp s) with
  | Some t => t
  | None => 0
  end.

(** Three snapshots of one year. *)
Definition year_snapshots : list WaybackFetcher.Snapshot :=
  [snapshot_at "20240115"; snapshot_at "20240820103000"; snapshot_at "20240610"].

(* ===================================================================== *)
(** ** The classifier *)
(* ===================================================================== *)

Lemma isBotUserAgent_match (this : BotFilter.t) (ua : string) :
  existsb (fun pattern => test pattern ua) (BotFilter.botPatterns this) = true ->
  BotFilter.isBotUserAgent this (Val ua) = true.
Proof.
  intros Hmatch. unfold BotFilter.isBotUserAgent.
  destruct (negb (truthy_str (Val ua))); [reflexivity | exact Hmatch].
Qed.

(** C1.  A request whose user-agent text matches some signature of the
    catalog is a bot with confidence 95 and method [user-agent], whatever its
    [ip] and [session] are; [isBotUserAgent] is the only check that is
    called: neither [isBotIP] nor [analyzeBehavior] is evaluated. *)
Theorem isBot_user_agent_precedence
  (this : BotFilter.t) (ua : string) (address : maybe string)
  (summary : maybe Session) :
  existsb (fun pattern => test pattern ua) (BotFilter.botPatterns this) = true ->
  BotFilter.isBot this
    {| BotFilter.req_userAgent := Val ua;
       BotFilter.req_ip := address;
       BotFilter.req_session := summary |}
  = ([Call_isBotUserAgent],
     Ok {| BotFilter.det_isBot := true;
           BotFilter.confidence := 95;
           BotFilter.reasons := ["Bot user-agent detected"];
           BotFilter.method := Val "user-agent" |}).
Proof.
  intros Hmatch. unfold BotFilter.isBot. cbn [BotFilter.req_userAgent].
  rewrite (isBotUserAgent_match this ua Hmatch). reflexivity.
Qed.

(** The example of the specification, with an address of a known bot range
    and a session on which the behavioural check would throw. *)
Lemma isBot_user_agent_precedence_witness :
  BotFilter.isBot BotFilter.constructor
    {| BotFilter.req_userAgent := Val "Googlebot/2.1";
       BotFilter.req_ip := Val "66.249.64.1";
       BotFilter.req_session := Val empty_session |}
  = ([Call_isBotUserAgent],
     Ok {| BotFilter.det_isBot := true;
           BotFilter.confidence := 95;
           BotFilter.reasons := ["Bot user-agent detected"];
           BotFilter.method := Val "user-agent" |}).
Proof.
  apply (isBot_user_agent_precedence BotFilter.constructor "Googlebot/2.1").
  reflexivity.
Defined.



(* ===================================================================== *)
(** ** The partition of the log *)
(* ===================================================================== *)



(** One round of the loop of [filterLogs] on an entry that gets a verdict. *)
Lemma filterLogs_step_ok (this : BotFilter.t) (e : LogEntry)
  (results : BotFilter.FilterResult) (detection : BotFilter.Detection) :
  outcome (BotFilter.isBot this (request_of e)) = Ok detection ->
  exists calls results',
    BotFilter.filterLogs_step this e results = (calls, Ok results')
    /\ BotFilter.total results' = BotFilter.total results
    /\ BotFilter.legitimate results'
       = BotFilter.legitimate results
         ++ (if BotFilter.det_isBot detection then [] else [e])
    /\ BotFilter.bots results'
       = BotFilter.bots results
         ++ (if BotFilter.det_isBot detection
             then [{| BotFilter.entry := e; BotFilter.botDetection := detection |}]
             else []).
Proof.
  intros Hd. unfold BotFilter.filterLogs_step.
  change {| BotFilter.req_userAgent := userAgent e;
            BotFilter.req_ip := ip e;
            BotFilter.req_session := session e |} with (request_of e).
  destruct (BotFilter.isBot this (request_of e)) as [calls r].
  cbn [outcome snd] in Hd. subst r. cbn [bind].
  destruct (BotFilter.det_isBot detection); cbn [ret];
    eexists; eexists; (split; [reflexivity | ]);
    cbn [BotFilter.total BotFilter.legitimate BotFilter.bots];
    rewrite ?app_nil_r; auto.
Qed.

(** The loop of [filterLogs], from any state of [results]. *)
Lemma filterLogs_loop (this : BotFilter.t) (entries : list LogEntry) :
  forall results : BotFilter.FilterResult,
  Forall (fun e => exists d, outcome (BotFilter.isBot this (request_of e)) = Ok d)
         entries ->
  exists calls results',
    forEach (BotFilter.filterLogs_step this) entries results = (calls, Ok results')
    /\ BotFilter.total results' = BotFilter.total results
    /\ BotFilter.legitimate results'
       = BotFilter.legitimate results
         ++ filter (fun e => negb (classified_bot this e)) entries
    /\ map BotFilter.entry (BotFilter.bots results')
       = map BotFilter.entry (BotFilter.bots results)
         ++ filter (classified_bot this) entries
    /\ (Forall (fun b => outcome (BotFilter.isBot this (request_of (BotFilter.entry b)))
                         = Ok (BotFilter.botDetection b))
               (BotFilter.bots results) ->
        Forall (fun b => outcome (BotFilter.isBot this (request_of (BotFilter.entry b)))
                         = Ok (BotFilter.botDetection b))
               (BotFilter.bots results')).
Proof.
  induction entries as [ | e entries IH]; intros results Hall.
  - exists [], results. cbn. rewrite !app_nil_r. auto.
  - inversion Hall as [ | ? ? [d Hd] Hrest]; subst.
    destruct (filterLogs_step_ok this e results d Hd)
      as (c1 & r1 & Hstep & Ht1 & Hl1 & Hb1).
    destruct (IH r1 Hrest) as (c2 & r2 & Hloop & Ht2 & Hl2 & Hb2 & Hv2).
    exists (c1 ++ c2), r2.
    cbn [forEach]. rewrite Hstep. cbn [bind]. rewrite Hloop.
    split; [reflexivity | ].
    split; [congruence | ].
    assert (Hc : classified_bot this e = BotFilter.det_isBot d)
      by (unfold classified_bot; rewrite Hd; reflexivity).
    cbn [filter]. rewrite Hc.
    rewrite Hl2, Hl1, Hb2, Hb1, map_app.
    destruct (BotFilter.det_isBot d) eqn:Ebot; cbn [negb map app];
      rewrite <- ?app_assoc, ?app_nil_r; cbn [app];
      (split; [reflexivity | split; [reflexivity | ]]).
    + intros Hv. apply Hv2. rewrite Hb1. apply Forall_app. split; [exact Hv | ].
      constructor; [exact Hd | constructor].
    + intros Hv. apply Hv2. rewrite Hb1, app_nil_r. exact Hv.
Qed.

Lemma filter_split_length {A} (f : A -> bool) (l : list A) :
  (length (filter (fun x => negb (f x)) l) + length (filter f l) = length l)%nat.
Proof.
  induction l as [ | x l IH]; cbn; [reflexivity | ].
  destruct (f x); cbn; lia.
Qed.


(* ===================================================================== *)
(** ** Objects used as maps *)
(* ===================================================================== *)

Lemma obj_get_set {V} (o : list (string * V)) (k k' : string) (v : V) :
  obj_get (obj_set o k v) k' = if k =? k' then Some v else obj_get o k'.
Proof.
  induction o as [ | [k0 v0] o IH]; cbn.
  - destruct (k =? k'); reflexivity.
  - destruct (k0 =? k) eqn:E0; cbn.
    + apply String.eqb_eq in E0. subst k0.
      destruct (k =? k'); reflexivity.
    + rewrite IH. destruct (k0 =? k') eqn:E1; [ | reflexivity].
      apply String.eqb_eq in E1. subst k0. rewrite String.eqb_sym, E0. reflexivity.
Qed.

Lemma obj_get_None {V} (o : list (string * V)) (k : string) :
  obj_get o k = None <-> ~ In k (map fst o).
Proof.
  induction o as [ | [k0 v0] o IH]; cbn.
  - tauto.
  - destruct (k0 =? k) eqn:E.
    + apply String.eqb_eq in E. split; [discriminate | intros H; exfalso; auto].
    + apply String.eqb_neq in E. rewrite IH. tauto.
Qed.

Lemma obj_set_keys {V} (o : list (string * V)) (k : string) (v : V) :
  map fst (obj_set o k v)
  = match obj_get o k with
    | Some _ => map fst o
    | None => map fst o ++ [k]
    end.
Proof.
  induction o as [ | [k0 v0] o IH]; cbn; [reflexivity | ].
  destruct (k0 =? k); cbn; [reflexivity | ].
  rewrite IH. destruct (obj_get o k); reflexivity.
Qed.

Lemma obj_set_NoDup {V} (o : list (string * V)) (k : string) (v : V) :
  NoDup (map fst o) -> NoDup (map fst (obj_set o k v)).
Proof.
  intros Hnd. rewrite obj_set_keys.
  destruct (obj_get o k) eqn:E; [exact Hnd | ].
  apply obj_get_None in E.
  apply NoDup_rev in Hnd. rewrite <- (rev_involutive (map fst o ++ [k])).
  apply NoDup_rev. rewrite rev_app_distr. cbn. constructor; [ | exact Hnd].
  rewrite <- in_rev. exact E.
Qed.

Lemma obj_get_In {V} (o : list (string * V)) (k : string) (v : V) :
  NoDup (map fst o) -> (In (k, v) o <-> obj_get o k = Some v).
Proof.
  induction o as [ | [k0 v0] o IH]; cbn; intros Hnd.
  - split; [tauto | discriminate].
  - inversion Hnd as [ | ? ? Hnotin Hnd']; subst.
    destruct (k0 =? k) eqn:E.
    + apply String.eqb_eq in E. subst k0. split.
      * intros [Heq | Hin]; [congruence | ].
        exfalso. apply Hnotin. apply (in_map fst) in Hin. exact Hin.
      * intros Heq. left. congruence.
    + apply String.eqb_neq in E. rewrite <- (IH Hnd'). split.
      * intros [Heq | Hin]; [congruence | exact Hin].
      * auto.
Qed.

(* ===================================================================== *)
(** ** Sorting *)
(* ===================================================================== *)

Lemma sort_insert_perm {A} (compare : A -> A -> option Z) (x : A) (l : list A) :
  Permutation (sort_insert compare x l) (x :: l).
Proof.
  induction l as [ | y l IH]; cbn; [reflexivity | ].
  destruct (positive_result (compare x y)); [ | reflexivity].
  rewrite IH. apply perm_swap.
Qed.

Lemma sort_perm {A} (compare : A -> A -> option Z) (l : list A) :
  Permutation (sort compare l) l.
Proof.
  induction l as [ | x l IH]; cbn; [reflexivity | ].
  rewrite sort_insert_perm. constructor. exact IH.
Qed.

Lemma sort_length {A} (compare : A -> A -> option Z) (l : list A) :
  length (sort compare l) = length l.
Proof. apply Permutation_length, sort_perm. Qed.

(** With a comparator that subtracts integral keys the result is ordered. *)
Lemma sort_insert_sorted {A} (key : A -> Z) (x : A) (l : list A) :
  StronglySorted (fun a b => (key a <= key b)%Z) l ->
  StronglySorted (fun a b => (key a <= key b)%Z)
                 (sort_insert (fun a b => Some (key a - key b)%Z) x l).
Proof.
  induction l as [ | y l IH]; cbn; intros Hs.
  - constructor; constructor.
  - inversion Hs as [ | ? ? Hs' Hall]; subst.
    destruct (0 <? key x - key y)%Z eqn:E.
    + apply Z.ltb_lt in E. constructor; [apply IH; exact Hs' | ].
      apply Forall_forall. intros z Hz.
      apply (Permutation_in _ (sort_insert_perm _ x l)) in Hz.
      destruct Hz as [Hz | Hz]; [subst z; lia | ].
      exact (proj1 (Forall_forall _ _) Hall z Hz).
    + apply Z.ltb_ge in E. constructor; [exact Hs | ].
      constructor; [lia | ].
      apply Forall_forall. intros z Hz.
      pose proof (proj1 (Forall_forall _ _) Hall z Hz) as Hyz.
      cbv beta in Hyz. lia.
Qed.

Lemma sort_sorted {A} (key : A -> Z) (l : list A) :
  StronglySorted (fun a b => (key a <= key b)%Z)
                 (sort (fun a b => Some (key a - key b)%Z) l).
Proof.
  induction l as [ | x l IH]; cbn; [constructor | ].
  apply sort_insert_sorted. exact IH.
Qed.



Lemma sort_insert_map {A B} (f : A -> B) (c : B -> B -> option Z) (x : A) (l : list A) :
  sort_insert c (f x) (map f l) = map f (sort_insert (fun a b => c (f a) (f b)) x l).
Proof.
  induction l as [ | y l IH]; cbn; [reflexivity | ].
  destruct (positive_result (c (f x) (f y))); cbn; [rewrite IH | ]; reflexivity.
Qed.

Lemma sort_map {A B} (f : A -> B) (c : B -> B -> option Z) (l : list A) :
  sort c (map f l) = map f (sort (fun a b => c (f a) (f b)) l).
Proof.
  induction l as [ | x l IH]; cbn; [reflexivity | ].
  rewrite IH. apply sort_insert_map.
Qed.

Lemma StronglySorted_map_fst {B} (l : list (Z * B)) :
  StronglySorted (fun a b => (fst a <= fst b)%Z) l ->
  StronglySorted Z.le (map fst l).
Proof.
  induction 1 as [ | a l Hs IH Hall]; cbn; constructor; [exact IH | ].
  apply Forall_forall. intros z Hz. apply in_map_iff in Hz.
  destruct Hz as (b & Hb & Hin). subst z.
  exact (proj1 (Forall_forall _ _) Hall b Hin).
Qed.

(* ===================================================================== *)
(** ** Session reconstruction *)
(* ===================================================================== *)

Section Grouping.

Variable md5_hex : string -> string.
Variable Date_parse : string -> option Z.

Let groups := AnalyticsReconstructor.group_visits md5_hex Date_parse.

Lemma group_visits_snoc (entries : list LogEntry) (e : LogEntry) :
  groups (entries ++ [e])
  = let fp := AnalyticsReconstructor._createFingerprint md5_hex (ip e) (userAgent e) in
    match obj_get (groups entries) fp with
    | None => obj_set (groups entries) fp [visit_of Date_parse e]
    | Some visits => obj_set (groups entries) fp (visits ++ [visit_of Date_parse e])
    end.
Proof.
  unfold groups, AnalyticsReconstructor.group_visits.
  rewrite fold_left_app. reflexivity.
Qed.

Lemma filter_none {A} (f : A -> bool) (l : list A) :
  existsb f l = false -> filter f l = [].
Proof.
  induction l as [ | x l IH]; cbn; [reflexivity | ].
  destruct (f x); cbn; [discriminate | exact IH].
Qed.

(** The list kept under a fingerprint holds the events of that visitor, in
    the order of the log. *)
Lemma group_visits_get (entries : list LogEntry) :
  forall fp : string,
  obj_get (groups entries) fp
  = if existsb (visitor_is md5_hex fp) entries
    then Some (events_of md5_hex Date_parse fp entries)
    else None.
Proof.
  induction entries as [ | e entries IH] using rev_ind; intros fp; [reflexivity | ].
  rewrite group_visits_snoc. cbv zeta.
  set (fpe := AnalyticsReconstructor._createFingerprint md5_hex (ip e) (userAgent e)).
  unfold events_of. rewrite existsb_app, filter_app, map_app. cbn [existsb filter].
  assert (Hv : visitor_is md5_hex fp e = (fpe =? fp)) by reflexivity.
  rewrite Hv, orb_false_r.
  rewrite (IH fpe).
  destruct (existsb (visitor_is md5_hex fpe) entries) eqn:Ee;
    rewrite obj_get_set; destruct (fpe =? fp) eqn:Efp.
  - apply String.eqb_eq in Efp. subst fp. rewrite orb_true_r. reflexivity.
  - rewrite orb_false_r, app_nil_r. apply IH.
  - apply String.eqb_eq in Efp. subst fp. rewrite orb_true_r.
    unfold events_of. rewrite (filter_none _ _ Ee). reflexivity.
  - rewrite orb_false_r, app_nil_r. apply IH.
Qed.

Lemma group_visits_NoDup (entries : list LogEntry) :
  NoDup (map fst (groups entries)).
Proof.
  induction entries as [ | e entries IH] using rev_ind; [constructor | ].
  rewrite group_visits_snoc. cbv zeta.
  destruct (obj_get (groups entries) _); apply obj_set_NoDup; exact IH.
Qed.

Lemma existsb_filter_nonempty {A} (f : A -> bool) (l : list A) :
  existsb f l = true -> filter f l <> [].
Proof.
  induction l as [ | x l IH]; cbn; [discriminate | ].
  destruct (f x); cbn; [discriminate | exact IH].
Qed.

(** The groups of [_calculateSessions]: one per visitor of the log, never
    empty, holding the events of that visitor. *)
Lemma group_visits_spec (entries : list LogEntry) (fp : string)
  (visits : list AnalyticsReconstructor.Visit) :
  In (fp, visits) (groups entries)
  <-> (existsb (visitor_is md5_hex fp) entries = true
       /\ visits = events_of md5_hex Date_parse fp entries).
Proof.
  rewrite (obj_get_In _ _ _ (group_visits_NoDup entries)), group_visits_get.
  destruct (existsb (visitor_is md5_hex fp) entries).
  - split; [intros H; inversion H; auto | intros [_ H]; congruence].
  - split; [discriminate | intros [H _]; discriminate].
Qed.

End Grouping.

Lemma gaps_within_snoc (timeout : Z) (cur : list Z) (t : Z) :
  cur <> [] ->
  gaps_within timeout cur ->
  (t - last cur 0 <= timeout)%Z ->
  gaps_within timeout (cur ++ [t]).
Proof.
  induction cur as [ | a cur IH]; [congruence | ].
  intros _ Hg Hlast. destruct cur as [ | b cur].
  - cbn in *. auto.
  - cbn [gaps_within] in Hg. destruct Hg as [Hab Hg].
    change ((a :: b :: cur) ++ [t]) with (a :: ((b :: cur) ++ [t])).
    change ((b :: cur) ++ [t]) with (b :: (cur ++ [t])) at 1.
    cbn [gaps_within]. split; [exact Hab | ].
    change (b :: (cur ++ [t])) with ((b :: cur) ++ [t]).
    apply IH; [discriminate | exact Hg | exact Hlast].
Qed.

Lemma hd_app_nonempty (cur suffix : list Z) :
  cur <> [] -> hd 0%Z (cur ++ suffix) = hd 0%Z cur.
Proof. destruct cur; [congruence | reflexivity]. Qed.

(** The walk of [_calculateSessions] over events with valid time values:
    from an open session [cur] it closes the runs into which the gaps
    greater than [timeout], and only they, cut the rest of the events. *)
Lemma walk_runs (timeout : Z) (rest : list (Z * maybe string)) :
  forall cur : list Z,
  cur <> [] ->
  gaps_within timeout cur ->
  exists suffix runs,
    concat ((cur ++ suffix) :: runs) = cur ++ map fst rest
    /\ Forall (fun run => run <> []) runs
    /\ Forall (gaps_within timeout) ((cur ++ suffix) :: runs)
    /\ separated timeout ((cur ++ suffix) :: runs)
    /\ AnalyticsReconstructor.walk timeout (Some (last cur 0%Z)) (Some (hd 0%Z cur))
         (length cur) (map event rest)
       = map summary ((cur ++ suffix) :: runs).
Proof.
  induction rest as [ | x rest IH]; intros cur Hne Hg.
  - exists [], []. cbn. rewrite !app_nil_r.
    repeat split; auto.
  - cbn [map AnalyticsReconstructor.walk event AnalyticsReconstructor.v_timestamp
         minus exceeds].
    destruct (timeout <? fst x - last cur 0)%Z eqn:E.
    + apply Z.ltb_lt in E.
      destruct (IH [fst x]) as (suffix & runs & Hc & Hn & Hw & Hs & Hwalk);
        [discriminate | exact I | ].
      exists [], (([fst x] ++ suffix) :: runs).
      rewrite app_nil_r.
      split.
      { cbn [concat] in *. rewrite Hc. reflexivity. }
      split.
      { constructor; [discriminate | exact Hn]. }
      split.
      { constructor; [exact Hg | exact Hw]. }
      split.
      { cbn [separated]. split; [ | exact Hs]. cbn [hd app]. exact E. }
      cbn [last hd length] in Hwalk. rewrite Hwalk. reflexivity.
    + apply Z.ltb_ge in E.
      destruct (IH (cur ++ [fst x])) as (suffix & runs & Hc & Hn & Hw & Hs & Hwalk).
      { destruct cur; discriminate. }
      { apply gaps_within_snoc; assumption. }
      rewrite last_last, (hd_app_nonempty cur [fst x] Hne), length_app in Hwalk.
      cbn [length] in Hwalk. rewrite Nat.add_1_r in Hwalk.
      rewrite <- app_assoc in Hc, Hw, Hs, Hwalk. cbn [app] in Hc, Hw, Hs, Hwalk.
      exists (fst x :: suffix), runs.
      split; [rewrite Hc, <- app_assoc; reflexivity | ].
      repeat split; assumption.
Qed.

(** The sessions of one visitor whose events have valid time values: the
    events are put in ascending order of time, and the sessions are the
    runs into which the gaps greater than [timeout] cut that order. *)
Lemma sessions_of_runs (timeout : Z) (x : Z * maybe string) (l : list (Z * maybe string)) :
  exists times runs,
    Permutation times (map fst (x :: l))
    /\ StronglySorted Z.le times
    /\ concat runs = times
    /\ Forall (fun run => run <> []) runs
    /\ Forall (gaps_within timeout) runs
    /\ separated timeout runs
    /\ AnalyticsReconstructor.sessions_of timeout (map event (x :: l))
       = map summary runs.
Proof.
  unfold AnalyticsReconstructor.sessions_of.
  rewrite (sort_map event AnalyticsReconstructor.compare_timestamp (x :: l)).
  change (fun a b : Z * maybe string =>
            AnalyticsReconstructor.compare_timestamp (event a) (event b))
    with (fun a b : Z * maybe string => Some (fst a - fst b)%Z).
  set (key := fun a b : Z * maybe string => Some (fst a - fst b)%Z).
  pose proof (sort_perm key (x :: l)) as Hperm.
  pose proof (sort_sorted (@fst Z (maybe string)) (x :: l)) as Hsorted.
  fold key in Hsorted.
  destruct (sort key (x :: l)) as [ | y s] eqn:Es.
  { apply Permutation_length in Hperm. discriminate. }
  destruct (walk_runs timeout s [fst y]) as (suffix & runs & Hc & Hn & Hw & Hs & Hwalk);
    [discriminate | exact I | ].
  exists (map fst (y :: s)), (([fst y] ++ suffix) :: runs).
  split; [apply Permutation_map; exact Hperm | ].
  split; [apply StronglySorted_map_fst; exact Hsorted | ].
  split; [exact Hc | ].
  split; [constructor; [discriminate | exact Hn] | ].
  split; [exact Hw | ].
  split; [exact Hs | ].
  cbn [map event AnalyticsReconstructor.v_timestamp fst] in *.
  exact Hwalk.
Qed.

Lemma two_events_sessions (timeout t d : Z) (p q : maybe string) :
  (0 <= d)%Z ->
  AnalyticsReconstructor.sessions_of timeout [event (t, p); event (t + d, q)%Z]
  = if (timeout <? d)%Z then [(Some 0%Z, 1%nat); (Some 0%Z, 1%nat)]
    else [(Some d, 2%nat)].
Proof.
  intros Hd.
  unfold AnalyticsReconstructor.sessions_of, AnalyticsReconstructor.compare_timestamp.
  cbn -[Z.sub Z.add Z.ltb].
  replace (0 <? t - (t + d))%Z with false by (symmetry; apply Z.ltb_ge; lia).
  cbn -[Z.sub Z.add Z.ltb].
  replace (t + d - t)%Z with d by lia.
  destruct (timeout <? d)%Z; rewrite ?Z.sub_diag; reflexivity.
Qed.

Lemma three_events_sessions (md5_hex : string -> string)
  (Date_parse : string -> option Z) (filter : option BotFilter.t)
  (address agent : maybe string) :
  AnalyticsReconstructor.all_sessions md5_hex Date_parse
    (AnalyticsReconstructor.constructor filter) (three_events address agent)
  = [(Some 600000%Z, 2%nat); (Some 0%Z, 1%nat)].
Proof.
  unfold AnalyticsReconstructor.all_sessions, AnalyticsReconstructor.group_visits,
    three_events, sample_entry.
  cbn [fold_left obj_get obj_set ip userAgent timestamp path url].
  rewrite !String.eqb_refl.
  cbn [obj_get obj_set]. rewrite !String.eqb_refl.
  reflexivity.
Qed.

Lemma events_of_valid (md5_hex : string -> string) (Date_parse : string -> option Z)
  (fp : string) (entries : list LogEntry) :
  forallb (valid_time Date_parse) entries = true ->
  events_of md5_hex Date_parse fp entries
  = map event (map (fun e => (entry_time Date_parse e, or_str (path e) (url e)))
                   (filter (visitor_is md5_hex fp) entries)).
Proof.
  intros Hvalid. unfold events_of. rewrite map_map. apply map_ext_in.
  intros e Hin. apply filter_In in Hin. destruct Hin as [Hin _].
  rewrite forallb_forall in Hvalid. specialize (Hvalid e Hin).
  unfold valid_time in Hvalid. unfold visit_of, event, entry_time. cbn [fst snd].
  destruct (AnalyticsReconstructor.getTime Date_parse (timestamp e));
    [reflexivity | discriminate].
Qed.

(** The sessions of a visitor of a log whose dates are all valid. *)
Lemma visitor_sessions (md5_hex : string -> string) (Date_parse : string -> option Z)
  (timeout : Z) (entries : list LogEntry) (fp : string) :
  forallb (valid_time Date_parse) entries = true ->
  existsb (visitor_is md5_hex fp) entries = true ->
  exists times runs,
    Permutation times
      (map (entry_time Date_parse) (filter (visitor_is md5_hex fp) entries))
    /\ StronglySorted Z.le times
    /\ concat runs = times
    /\ Forall (fun run => run <> []) runs
    /\ Forall (gaps_within timeout) runs
    /\ separated timeout runs
    /\ AnalyticsReconstructor.sessions_of timeout
         (events_of md5_hex Date_parse fp entries)
       = map summary runs.
Proof.
  intros Hvalid Hex. rewrite (events_of_valid _ _ _ _ Hvalid).
  pose proof (existsb_filter_nonempty _ _ Hex) as Hne.
  destruct (filter (visitor_is md5_hex fp) entries) as [ | x l]; [congruence | ].
  cbn [map].
  destruct (sessions_of_runs timeout
              (entry_time Date_parse x, or_str (path x) (url x))
              (map (fun e => (entry_time Date_parse e, or_str (path e) (url e))) l))
    as (times & runs & Hperm & Hrest).
  exists times, runs. split; [ | exact Hrest].
  cbn [map fst] in Hperm. rewrite map_map in Hperm. exact Hperm.
Qed.

(** C3.  Session reconstruction keeps, for each visitor, the list of the
    events of that visitor; with valid dates it puts the events of a visitor
    in ascending order of time and cuts that order into sessions exactly at
    the gaps that are greater than the timeout, reporting for each session
    its duration (last minus first) and its page count; the timeout is 30
    minutes, and two events at the same time are one session; three events
    of one visitor at 0, 10 and 45 minutes give two sessions: one of 10
    minutes with two pages, one of duration 0 with one page. *)
Theorem session_reconstruction :
  (forall md5_hex Date_parse entries fp visits,
      In (fp, visits) (AnalyticsReconstructor.group_visits md5_hex Date_parse entries)
      <-> (existsb (visitor_is md5_hex fp) entries = true
           /\ visits = events_of md5_hex Date_parse fp entries))
  /\ (forall md5_hex Date_parse timeout entries fp,
        forallb (valid_time Date_parse) entries = true ->
        existsb (visitor_is md5_hex fp) entries = true ->
        exists times runs,
          Permutation times
            (map (entry_time Date_parse) (filter (visitor_is md5_hex fp) entries))
          /\ StronglySorted Z.le times
          /\ concat runs = times
          /\ Forall (fun run => run <> []) runs
          /\ Forall (gaps_within timeout) runs
          /\ separated timeout runs
          /\ AnalyticsReconstructor.sessions_of timeout
               (events_of md5_hex Date_parse fp entries)
             = map summary runs)
  /\ (forall filter,
        AnalyticsReconstructor.sessionTimeout (AnalyticsReconstructor.constructor filter)
        = 1800000%Z)
  /\ (forall filter t p q,
        AnalyticsReconstructor.sessions_of
          (AnalyticsReconstructor.sessionTimeout (AnalyticsReconstructor.constructor filter))
          [event (t, p); event (t, q)]
        = [(Some 0%Z, 2%nat)])
  /\ (forall md5_hex Date_parse filter address agent,
        AnalyticsReconstructor.all_sessions md5_hex Date_parse
          (AnalyticsReconstructor.constructor filter) (three_events address agent)
        = [(Some 600000%Z, 2%nat); (Some 0%Z, 1%nat)]
        /\ AnalyticsReconstructor.ses_total
             (AnalyticsReconstructor._calculateSessions md5_hex Date_parse
                (AnalyticsReconstructor.constructor filter) (three_events address agent))
           = 2%nat).
Proof.
  split; [intros; apply group_visits_spec | ].
  split; [intros; apply visitor_sessions; assumption | ].
  split; [reflexivity | ].
  split.
  { intros filter t p q.
    pose proof (two_events_sessions (30 * 60 * 1000) t 0 p q (Z.le_refl 0)) as H.
    rewrite Z.add_0_r in H. exact H. }
  intros md5_hex Date_parse filter address agent.
  unfold AnalyticsReconstructor._calculateSessions.
  cbn [AnalyticsReconstructor.ses_total].
  rewrite three_events_sessions. split; reflexivity.
Qed.

(* ===================================================================== *)
(** ** Percentages and the bounce rate *)
(* ===================================================================== *)




Lemma walk_nonempty (timeout : Z) (rest : list AnalyticsReconstructor.Visit) :
  forall prev start pages,
  AnalyticsReconstructor.walk timeout prev start pages rest <> [].
Proof.
  induction rest as [ | v rest IH]; intros prev start pages; cbn; [discriminate | ].
  destruct (exceeds _ _); [discriminate | apply IH].
Qed.

Lemma sessions_of_nonempty (timeout : Z) (visits : list AnalyticsReconstructor.Visit) :
  visits <> [] -> AnalyticsReconstructor.sessions_of timeout visits <> [].
Proof.
  intros Hne. unfold AnalyticsReconstructor.sessions_of.
  pose proof (sort_length AnalyticsReconstructor.compare_timestamp visits) as Hlen.
  destruct (sort AnalyticsReconstructor.compare_timestamp visits) as [ | first rest].
  - destruct visits; [congruence | discriminate].
  - apply walk_nonempty.
Qed.



(* ===================================================================== *)
(** ** The visitor fingerprint *)
(* ===================================================================== *)

Lemma or_unknown_spec (x : maybe string) :
  to_str (or_str x (Val "unknown")) = or_unknown x.
Proof.
  destruct x as [ | | s]; try reflexivity.
  unfold or_str, or_unknown, truthy_str. destruct (s =? ""); reflexivity.
Qed.

(** C6.  The fingerprint is the digest of the text
    ["{ip or unknown}|{userAgent or unknown}"] and of nothing else: two
    entries with the same [ip] and the same [userAgent] have the same
    fingerprint, and the fingerprints of [(undefined, undefined)] and of
    [(null, null)] are both the digest of ["unknown|unknown"]. *)
Theorem fingerprint_is_digest (md5_hex : string -> string) :
  (forall address agent : maybe string,
      AnalyticsReconstructor._createFingerprint md5_hex address agent
      = md5_hex (or_unknown address ++ "|" ++ or_unknown agent)%string)
  /\ (forall e1 e2 : LogEntry,
        ip e1 = ip e2 -> userAgent e1 = userAgent e2 ->
        AnalyticsReconstructor._createFingerprint md5_hex (ip e1) (userAgent e1)
        = AnalyticsReconstructor._createFingerprint md5_hex (ip e2) (userAgent e2))
  /\ AnalyticsReconstructor._createFingerprint md5_hex Undefined Undefined
     = AnalyticsReconstructor._createFingerprint md5_hex Null Null
  /\ AnalyticsReconstructor._createFingerprint md5_hex Undefined Undefined
     = md5_hex "unknown|unknown".
Proof.
  split.
  { intros address agent. unfold AnalyticsReconstructor._createFingerprint.
    rewrite !or_unknown_spec. reflexivity. }
  split.
  { intros e1 e2 Hip Hua. rewrite Hip, Hua. reflexivity. }
  split; reflexivity.
Qed.


(* ===================================================================== *)
(** ** [processLogs] on malformed and on empty input *)
(* ===================================================================== *)

(** C4.  On the entry of a browser request that carries a session object
    with no [headers] field, [analyzeBehavior] is called and throws a
    [TypeError] that nothing catches: [filterLogs] and [processLogs] throw
    it, and no result is returned. *)
Theorem processLogs_throws_without_headers
  (md5_hex : string -> string) (Date_parse : string -> option Z)
  (URL_hostname : string -> option string) :
  BotFilter.analyzeBehavior BotFilter.constructor empty_session
  = Throw (TypeError "Cannot read properties of undefined (reading 'acceptLanguage')")
  /\ BotFilter.filterLogs BotFilter.constructor [entry_without_headers]
     = ([Call_isBotUserAgent; Call_isBotIP; Call_analyzeBehavior],
        Throw (TypeError "Cannot read properties of undefined (reading 'acceptLanguage')"))
  /\ AnalyticsReconstructor.processLogs md5_hex Date_parse URL_hostname reconstructor
       [entry_without_headers]
     = ([Call_isBotUserAgent; Call_isBotIP; Call_analyzeBehavior],
        Throw (TypeError "Cannot read properties of undefined (reading 'acceptLanguage')")).
Proof. repeat split. Qed.

(** C5.  On the empty array [processLogs] returns a result whose counts are
    all zero, whose average duration is 0 and whose average of pages per
    session is "0.00"; but the bot percentage, the bounce rate and the four
    device percentages are the text "NaN". *)
Theorem processLogs_empty_is_NaN
  (md5_hex : string -> string) (Date_parse : string -> option Z)
  (URL_hostname : string -> option string) :
  AnalyticsReconstructor.processLogs md5_hex Date_parse URL_hostname reconstructor []
  = ([],
     Ok {| AnalyticsReconstructor.overview := {|
             AnalyticsReconstructor.totalRequests := 0;
             AnalyticsReconstructor.totalBots := 0;
             AnalyticsReconstructor.botPercentage := PStr "NaN" |};
           AnalyticsReconstructor.visitors := {|
             AnalyticsReconstructor.byIP := 0;
             AnalyticsReconstructor.byFingerprint := 0;
             AnalyticsReconstructor.recommended := 0 |};
           AnalyticsReconstructor.sessions := {|
             AnalyticsReconstructor.ses_total := 0;
             AnalyticsReconstructor.avgDuration := of_Z 0;
             AnalyticsReconstructor.avgDurationFormatted := "0s";
             AnalyticsReconstructor.avgPagesPerSession := "0.00";
             AnalyticsReconstructor.bounceRate := "NaN" |};
           AnalyticsReconstructor.referrers := {|
             AnalyticsReconstructor.ref_total := 0;
             AnalyticsReconstructor.top := [];
             AnalyticsReconstructor.all := [] |};
           AnalyticsReconstructor.devices := {|
             AnalyticsReconstructor.counts := {|
               AnalyticsReconstructor.mobile := 0;
               AnalyticsReconstructor.tablet := 0;
               AnalyticsReconstructor.desktop := 0;
               AnalyticsReconstructor.unknown := 0 |};
             AnalyticsReconstructor.percentages := {|
               AnalyticsReconstructor.pct_mobile := "NaN";
               AnalyticsReconstructor.pct_tablet := "NaN";
               AnalyticsReconstructor.pct_desktop := "NaN";
               AnalyticsReconstructor.pct_unknown := "NaN" |} |} |}).
Proof. reflexivity. Qed.

(* ===================================================================== *)
(** ** The referrers aggregate *)
(* ===================================================================== *)


Lemma partition_perm {A} (f : A -> bool) (l : list A) :
  Permutation (filter f l ++ filter (fun x => negb (f x)) l) l.
Proof.
  induction l as [ | x l IH]; cbn; [reflexivity | ].
  destruct (f x); cbn.
  - constructor. exact IH.
  - rewrite <- Permutation_middle. constructor. exact IH.
Qed.

Lemma Object_entries_perm {V} (o : list (string * V)) :
  Permutation (Object_entries o) o.
Proof.
  unfold Object_entries. rewrite sort_perm. apply partition_perm.
Qed.

Section ReferrersAggregate.

Variable md5_hex : string -> string.
Variable URL_hostname : string -> option string.

Let bucket := AnalyticsReconstructor.referrer_bucket URL_hostname.
Let step := AnalyticsReconstructor.referrers_step md5_hex URL_hostname.


End ReferrersAggregate.




(* ===================================================================== *)
(** ** Instances *)
(* ===================================================================== *)




(* ===================================================================== *)
(** ** More on the classifier *)
(* ===================================================================== *)

(** A request without a user-agent text (missing, [null] or empty) is a bot
    with confidence 95 by the user-agent check alone, for every catalog, [ip]
    and [session]. *)
Theorem isBot_without_user_agent
  (this : BotFilter.t) (ua address : maybe string) (summary : maybe Session) :
  truthy_str ua = false ->
  BotFilter.isBot this
    {| BotFilter.req_userAgent := ua;
       BotFilter.req_ip := address;
       BotFilter.req_session := summary |}
  = ([Call_isBotUserAgent],
     Ok {| BotFilter.det_isBot := true;
           BotFilter.confidence := 95;
           BotFilter.reasons := ["Bot user-agent detected"];
           BotFilter.method := Val "user-agent" |}).
Proof.
  intros Hua. unfold BotFilter.isBot. cbn [BotFilter.req_userAgent].
  assert (H : BotFilter.isBotUserAgent this ua = true).
  { unfold BotFilter.isBotUserAgent. destruct ua as [ | | s]; try reflexivity.
    rewrite Hua. reflexivity. }
  rewrite H. reflexivity.
Qed.

Lemma isBot_without_user_agent_witness :
  truthy_str (Val "") = false
  /\ outcome (BotFilter.isBot BotFilter.constructor
                {| BotFilter.req_userAgent := Val "";
                   BotFilter.req_ip := Val "192.168.1.1";
                   BotFilter.req_session := Undefined |})
     = Ok {| BotFilter.det_isBot := true;
             BotFilter.confidence := 95;
             BotFilter.reasons := ["Bot user-agent detected"];
             BotFilter.method := Val "user-agent" |}.
Proof.
  split; [reflexivity | ].
  rewrite (isBot_without_user_agent BotFilter.constructor (Val "")
             (Val "192.168.1.1") Undefined eq_refl).
  reflexivity.
Defined.

Lemma canonicalize_toLowerCase (c : ascii) :
  canonicalize (toLowerCase_ascii c) = canonicalize c.
Proof. destruct c as [[] [] [] [] [] [] [] []]; reflexivity. Qed.

Lemma starts_with_toLowerCase (p s : string) :
  starts_with (eq_code_unit true) p (toLowerCase s)
  = starts_with (eq_code_unit true) p s.
Proof.
  revert s. induction p as [ | a p IH]; intros s; [reflexivity | ].
  destruct s as [ | b s]; [reflexivity | ].
  cbn [toLowerCase starts_with]. rewrite IH.
  unfold eq_code_unit. rewrite canonicalize_toLowerCase. reflexivity.
Qed.

Lemma occurs_cons (eqc : ascii -> ascii -> bool) (p : string) (b : ascii) (s : string) :
  occurs eqc p (String b s) = starts_with eqc p (String b s) || occurs eqc p s.
Proof. reflexivity. Qed.

Lemma occurs_toLowerCase (p s : string) :
  occurs (eq_code_unit true) p (toLowerCase s) = occurs (eq_code_unit true) p s.
Proof.
  induction s as [ | b s IH]; [reflexivity | ].
  rewrite occurs_cons, <- IH, <- (starts_with_toLowerCase p (String b s)).
  reflexivity.
Qed.

Lemma toLowerCase_empty (s : string) : (toLowerCase s =? "") = (s =? "").
Proof. destruct s; reflexivity. Qed.

(** The catalog does not see the case of ASCII letters: two user-agent texts
    that differ only in it get the same answer from [isBotUserAgent] and the
    same verdict from [isBot]. *)
Theorem isBot_ignores_case
  (s s' : string) (address : maybe string) (summary : maybe Session) :
  toLowerCase s = toLowerCase s' ->
  BotFilter.isBotUserAgent BotFilter.constructor (Val s)
  = BotFilter.isBotUserAgent BotFilter.constructor (Val s')
  /\ BotFilter.isBot BotFilter.constructor
       {| BotFilter.req_userAgent := Val s;
          BotFilter.req_ip := address;
          BotFilter.req_session := summary |}
     = BotFilter.isBot BotFilter.constructor
         {| BotFilter.req_userAgent := Val s';
            BotFilter.req_ip := address;
            BotFilter.req_session := summary |}.
Proof.
  intros Hcase.
  assert (Hlow : forall x,
             BotFilter.isBotUserAgent BotFilter.constructor (Val (toLowerCase x))
             = BotFilter.isBotUserAgent BotFilter.constructor (Val x)).
  { intros x. unfold BotFilter.isBotUserAgent, truthy_str.
    rewrite toLowerCase_empty. destruct (negb (x =? "")); cbn [negb]; [ | reflexivity].
    unfold BotFilter.constructor, BotFilter.botPatterns, BotFilter.i, test.
    cbn [existsb source ignoreCase]. rewrite !occurs_toLowerCase. reflexivity. }
  assert (Hua : BotFilter.isBotUserAgent BotFilter.constructor (Val s)
                = BotFilter.isBotUserAgent BotFilter.constructor (Val s')).
  { rewrite <- (Hlow s), <- (Hlow s'), Hcase. reflexivity. }
  split; [exact Hua | ].
  unfold BotFilter.isBot. cbn [BotFilter.req_userAgent BotFilter.req_ip
                               BotFilter.req_session].
  rewrite Hua. reflexivity.
Qed.

Lemma isBot_ignores_case_witness :
  toLowerCase "GOOGLEBOT/2.1" = toLowerCase "GoogleBot/2.1"
  /\ BotFilter.isBotUserAgent BotFilter.constructor (Val "GOOGLEBOT/2.1")
     = BotFilter.isBotUserAgent BotFilter.constructor (Val "GoogleBot/2.1").
Proof.
  split; [reflexivity | ].
  exact (proj1 (isBot_ignores_case "GOOGLEBOT/2.1" "GoogleBot/2.1" Undefined Undefined
                  eq_refl)).
Defined.

Lemma starts_with_app (eqc : ascii -> ascii -> bool) (p s post : string) :
  starts_with eqc p s = true -> starts_with eqc p (s ++ post) = true.
Proof.
  revert s. induction p as [ | a p IH]; intros s; [reflexivity | ].
  destruct s as [ | b s]; cbn; [discriminate | ].
  intros H. apply andb_true_iff in H. destruct H as [Hab Hrest].
  rewrite Hab, (IH s Hrest). reflexivity.
Qed.

Lemma occurs_app_r (eqc : ascii -> ascii -> bool) (p s post : string) :
  occurs eqc p s = true -> occurs eqc p (s ++ post) = true.
Proof.
  induction s as [ | b s IH]; intros H.
  - cbn in H. rewrite orb_false_r in H.
    destruct p; [ | discriminate]. destruct post; reflexivity.
  - rewrite occurs_cons in H. change (String b s ++ post)%string
      with (String b (s ++ post)). rewrite occurs_cons.
    apply orb_true_iff in H. destruct H as [H | H].
    + change (String b (s ++ post)) with (String b s ++ post)%string.
      rewrite (starts_with_app _ _ _ _ H). reflexivity.
    + rewrite (IH H). apply orb_true_r.
Qed.

Lemma occurs_app_l (eqc : ascii -> ascii -> bool) (p pre s : string) :
  occurs eqc p s = true -> occurs eqc p (pre ++ s) = true.
Proof.
  intros H. induction pre as [ | b pre IH]; [exact H | ].
  change (String b pre ++ s)%string with (String b (pre ++ s)).
  rewrite occurs_cons, IH. apply orb_true_r.
Qed.

(** A user-agent text that contains a text matched by a signature of the
    catalog is matched too: whatever surrounds it, it is a bot. *)
Theorem isBotUserAgent_contains
  (this : BotFilter.t) (s pre post : string) :
  existsb (fun pattern => test pattern s) (BotFilter.botPatterns this) = true ->
  BotFilter.isBotUserAgent this (Val (pre ++ s ++ post)%string) = true.
Proof.
  intros Hmatch. apply isBotUserAgent_match.
  apply existsb_exists in Hmatch. destruct Hmatch as (pattern & Hin & Htest).
  apply existsb_exists. exists pattern. split; [exact Hin | ].
  unfold test in *. apply occurs_app_l, occurs_app_r. exact Htest.
Qed.

Lemma isBotUserAgent_contains_witness :
  BotFilter.isBotUserAgent BotFilter.constructor
    (Val ("Mozilla/5.0 (compatible; " ++ "bingbot/2.0"
          ++ "; +http://www.bing.com/bingbot.htm)")%string) = true.
Proof.
  apply (isBotUserAgent_contains BotFilter.constructor "bingbot/2.0").
  reflexivity.
Defined.

Lemma starts_with_eqb_iff (p s : string) :
  starts_with Ascii.eqb p s = true <-> exists rest, s = (p ++ rest)%string.
Proof.
  revert s. induction p as [ | a p IH]; intros s.
  - split; [intros _; exists s; reflexivity | reflexivity].
  - destruct s as [ | b s]; cbn [starts_with].
    + split; [discriminate | intros [rest H]; discriminate].
    + rewrite andb_true_iff, IH, Ascii.eqb_eq. split.
      * intros [Hab [rest Hs]]. subst. exists rest. reflexivity.
      * intros [rest H]. inversion H. split; [reflexivity | exists rest; reflexivity].
Qed.

(** [isBotIP] answers true exactly for the addresses that start with one of
    the four prefixes written in the method; the [botIPRanges] of the
    instance are not consulted, so an address of a listed range such as
    35.0.0.0/8 is not flagged. *)
Theorem isBotIP_prefixes (this : BotFilter.t) (address : maybe string) :
  BotFilter.isBotIP this address = true
  <-> exists prefix rest,
        In prefix ["66.249."; "40.77."; "157.55."; "207.46."]
        /\ address = Val (prefix ++ rest)%string.
Proof.
  unfold BotFilter.isBotIP, BotFilter.knownBotIPs. split.
  - destruct (truthy_str address) eqn:Et; cbn [negb]; [ | discriminate].
    destruct address as [ | | s]; try discriminate. cbn [to_str].
    intros H. apply existsb_exists in H. destruct H as (prefix & Hin & Hs).
    apply starts_with_eqb_iff in Hs. destruct Hs as [rest Hs].
    exists prefix, rest. subst s. auto.
  - intros (prefix & rest & Hin & Haddr). subst address.
    assert (Ht : truthy_str (Val (prefix ++ rest)%string) = true).
    { cbn in Hin. destruct Hin as [H | [H | [H | [H | []]]]]; subst prefix; reflexivity. }
    rewrite Ht. cbn [negb to_str]. apply existsb_exists.
    exists prefix. split; [exact Hin | ].
    apply starts_with_eqb_iff. exists rest. reflexivity.
Qed.

(** A request that the user-agent check passes and whose address is flagged
    by [isBotIP] is a bot with confidence 85 and method [ip-range], whatever
    its session is: [analyzeBehavior] is not called. *)
Theorem isBot_ip_precedence
  (this : BotFilter.t) (ua address : maybe string) (summary : maybe Session) :
  BotFilter.isBotUserAgent this ua = false ->
  BotFilter.isBotIP this address = true ->
  BotFilter.isBot this
    {| BotFilter.req_userAgent := ua;
       BotFilter.req_ip := address;
       BotFilter.req_session := summary |}
  = ([Call_isBotUserAgent; Call_isBotIP],
     Ok {| BotFilter.det_isBot := true;
           BotFilter.confidence := 85;
           BotFilter.reasons := ["IP from known bot range"];
           BotFilter.method := Val "ip-range" |}).
Proof.
  intros Hua Hip. unfold BotFilter.isBot.
  cbn [BotFilter.req_userAgent BotFilter.req_ip]. rewrite Hua, Hip.
  assert (Ht : truthy_str address = true).
  { unfold BotFilter.isBotIP in Hip. destruct (truthy_str address);
      [reflexivity | discriminate]. }
  rewrite Ht. reflexivity.
Qed.

Lemma isBot_ip_precedence_witness :
  BotFilter.isBot BotFilter.constructor
    {| BotFilter.req_userAgent := Val chrome_ua;
       BotFilter.req_ip := Val "66.249.64.1";
       BotFilter.req_session := Val empty_session |}
  = ([Call_isBotUserAgent; Call_isBotIP],
     Ok {| BotFilter.det_isBot := true;
           BotFilter.confidence := 85;
           BotFilter.reasons := ["IP from known bot range"];
           BotFilter.method := Val "ip-range" |}).
Proof.
  apply (isBot_ip_precedence BotFilter.constructor (Val chrome_ua) (Val "66.249.64.1"));
    reflexivity.
Defined.

Lemma analyzeBehavior_throws (this : BotFilter.t) (s : Session) :
  (exists e, BotFilter.analyzeBehavior this s = Throw e) <-> has_headers s = false.
Proof.
  unfold has_headers, BotFilter.analyzeBehavior, BotFilter.headers_of.
  destruct (headers s); split; intros H;
    try reflexivity; try discriminate; try (eexists; reflexivity).
  destruct H as [e H]. discriminate.
Qed.

(** [analyzeBehavior] throws exactly on the summaries that carry no
    [headers] object; otherwise it returns. *)
Theorem analyzeBehavior_throws_iff (this : BotFilter.t) (s : Session) :
  (exists e, BotFilter.analyzeBehavior this s = Throw e) <-> has_headers s = false.
Proof.
  apply analyzeBehavior_throws.
Qed.

Lemma analyzeBehavior_range
  (this : BotFilter.t) (s : Session) (indicators : BotFilter.Indicators) :
  BotFilter.analyzeBehavior this s = Ok indicators ->
  (0 <= BotFilter.ind_confidence indicators <= 135)%Z
  /\ (length (BotFilter.ind_reasons indicators) <= 7)%nat
  /\ (BotFilter.ind_isBot indicators = true
      <-> (50 <= BotFilter.ind_confidence indicators)%Z)
  /\ (BotFilter.ind_isBot indicators = true ->
      (2 <= length (BotFilter.ind_reasons indicators))%nat).
Proof.
  unfold BotFilter.analyzeBehavior, BotFilter.headers_of.
  destruct (headers s) as [ | | h]; try discriminate.
  unfold BotFilter.when.
  set (b1 := num_gt (toNumber (requestsPerMinute s)) _).
  set (b2 := num_lt (toNumber (duration s)) _).
  set (b3 := negb (truthy_bool (hasJavaScript s))).
  set (b4 := (_ && truthy_bool (perfectTiming s))).
  set (b5 := (strict_eq_zero (errorRate s) && _)).
  set (b6 := negb (truthy_str (acceptLanguage h))).
  set (b7 := (negb (truthy_str (hdr_referer h)) && _)).
  clearbody b1 b2 b3 b4 b5 b6 b7.
  intros H; inversion H; subst; clear H.
  destruct b1, b2, b3, b4, b5, b6, b7; cbn;
    (split; [lia | ]); (split; [lia | ]);
    (split;
     [ split; [intros Hb; first [lia | discriminate]
              | intros Hc; first [reflexivity | exfalso; lia]]
     | intros Hb; first [lia | discriminate] ]).
Qed.

(** The result of the behavioural check, whatever the thresholds of the
    instance: the confidence is between 0 and 135, there are at most seven
    reasons, the flag is set exactly from 50 on, and it is never set on the
    strength of a single indicator. *)
Theorem analyzeBehavior_bounds
  (this : BotFilter.t) (s : Session) (indicators : BotFilter.Indicators) :
  BotFilter.analyzeBehavior this s = Ok indicators ->
  (0 <= BotFilter.ind_confidence indicators <= 135)%Z
  /\ (length (BotFilter.ind_reasons indicators) <= 7)%nat
  /\ (BotFilter.ind_isBot indicators = true
      <-> (50 <= BotFilter.ind_confidence indicators)%Z)
  /\ (BotFilter.ind_isBot indicators = true ->
      (2 <= length (BotFilter.ind_reasons indicators))%nat).
Proof.
  apply analyzeBehavior_range.
Qed.

Lemma isBot_verdict
  (this : BotFilter.t) (request : BotFilter.Request) (d : BotFilter.Detection) :
  outcome (BotFilter.isBot this request) = Ok d ->
  if BotFilter.det_isBot d
  then (50 <= BotFilter.confidence d <= 135)%Z
       /\ BotFilter.reasons d <> []
       /\ exists m, BotFilter.method d = Val m /\ In m detection_methods
  else BotFilter.confidence d = 0%Z
       /\ BotFilter.reasons d = []
       /\ BotFilter.method d = Null.
Proof.
  unfold BotFilter.isBot, detection_methods.
  destruct (BotFilter.isBotUserAgent this (BotFilter.req_userAgent request)).
  { cbn. intros H. inversion H. cbn.
    split; [lia | split; [discriminate | eexists; split; [reflexivity | cbn; auto]]]. }
  destruct (truthy_str (BotFilter.req_ip request));
    [destruct (BotFilter.isBotIP this (BotFilter.req_ip request)) | ].
  { cbn. intros H. inversion H. cbn.
    split; [lia | split; [discriminate | eexists; split; [reflexivity | cbn; auto]]]. }
  all: destruct (BotFilter.req_session request) as [ | | s];
    try (cbn; intros H; inversion H; cbn; auto; fail).
  all: destruct (BotFilter.analyzeBehavior this s) as [ind | e] eqn:Eab;
    [ | cbn; discriminate].
  all: destruct (analyzeBehavior_range this s ind Eab) as (Hc & _ & Hiff & Htwo).
  all: destruct (BotFilter.ind_isBot ind) eqn:Eb; cbn; rewrite Eb; cbn;
    intros H; inversion H; cbn; auto.
  all: split; [pose proof (proj1 Hiff eq_refl); lia | ].
  all: split; [ | eexists; split; [reflexivity | cbn; auto]].
  all: intros Hnil; rewrite Hnil in Htwo; specialize (Htwo eq_refl); cbn in Htwo; lia.
Qed.

(** The shape of a verdict: a bot verdict has a confidence of at least 50,
    at least one reason and one of the three methods; any other verdict has
    confidence 0, no reason and no method. *)
Theorem isBot_verdict_shape
  (this : BotFilter.t) (request : BotFilter.Request) (d : BotFilter.Detection) :
  outcome (BotFilter.isBot this request) = Ok d ->
  if BotFilter.det_isBot d
  then (50 <= BotFilter.confidence d <= 135)%Z
       /\ BotFilter.reasons d <> []
       /\ exists m, BotFilter.method d = Val m /\ In m detection_methods
  else BotFilter.confidence d = 0%Z
       /\ BotFilter.reasons d = []
       /\ BotFilter.method d = Null.
Proof.
  apply isBot_verdict.
Qed.

Lemma isBot_throws (this : BotFilter.t) (e : LogEntry) :
  (exists x, outcome (BotFilter.isBot this (request_of e)) = Throw x)
  <-> unclassifiable this e.
Proof.
  unfold unclassifiable, BotFilter.isBot, request_of.
  cbn [BotFilter.req_userAgent BotFilter.req_ip BotFilter.req_session].
  assert (Hip : truthy_str (ip e) = false -> BotFilter.isBotIP this (ip e) = false).
  { intros H. unfold BotFilter.isBotIP. rewrite H. reflexivity. }
  destruct (BotFilter.isBotUserAgent this (userAgent e)).
  { cbn. split; [intros [x H]; discriminate | intros [H _]; discriminate]. }
  destruct (truthy_str (ip e)) eqn:Et;
    [destruct (BotFilter.isBotIP this (ip e)) eqn:Ei | rewrite (Hip eq_refl)].
  { cbn. split; [intros [x H]; discriminate | intros (_ & H & _); discriminate]. }
  all: destruct (session e) as [ | | s].
  all: try (cbn; split;
            [intros [x H]; discriminate
            | intros (_ & _ & s' & Hs & _); discriminate]).
  all: pose proof (analyzeBehavior_throws this s) as Hthrow.
  all: destruct (BotFilter.analyzeBehavior this s) as [ind | x] eqn:Eab.
  all: try (split;
            [ intros [y H]; cbn in H; destruct (BotFilter.ind_isBot ind); discriminate
            | intros (_ & _ & s' & Hs & Hh); inversion Hs; subst s';
              apply Hthrow in Hh; destruct Hh as [y Hy]; discriminate ]).
  all: split; [intros _ | intros _; cbn; eexists; reflexivity].
  all: split; [reflexivity | split; [reflexivity | ]].
  all: exists s; split; [reflexivity | apply Hthrow; eexists; reflexivity].
Qed.

(** The classifier throws on exactly the entries that are [unclassifiable]:
    passed by the user-agent and IP checks, with a session that carries no
    [headers] object. *)
Theorem isBot_throws_iff (this : BotFilter.t) (e : LogEntry) :
  (exists x, outcome (BotFilter.isBot this (request_of e)) = Throw x)
  <-> unclassifiable this e.
Proof.
  apply isBot_throws.
Qed.

(** A loop that returns has kept every property that each of its rounds
    keeps. *)
Lemma forEach_invariant {A S} (body : A -> S -> M S) (P : S -> Prop) (xs : list A) :
  (forall x s c s', In x xs -> body x s = (c, Ok s') -> P s -> P s') ->
  forall s c s', forEach body xs s = (c, Ok s') -> P s -> P s'.
Proof.
  induction xs as [ | x xs IH]; intros Hstep s c s' Hrun Hs.
  - cbn in Hrun. inversion Hrun. subst. exact Hs.
  - cbn [forEach] in Hrun.
    destruct (body x s) as [c1 [s1 | e1]] eqn:E1; cbn [bind] in Hrun; [ | discriminate].
    destruct (forEach body xs s1) as [c2 r2] eqn:E2.
    inversion Hrun. subst.
    apply (IH (fun y t c' t' Hin => Hstep y t c' t' (or_intror Hin)) s1 c2 s' E2).
    apply (Hstep x s c1 s1 (or_introl eq_refl) E1 Hs).
Qed.

Lemma filterLogs_step_throw (this : BotFilter.t) (e : LogEntry)
  (results : BotFilter.FilterResult) (x : exn) :
  outcome (BotFilter.isBot this (request_of e)) = Throw x ->
  outcome (BotFilter.filterLogs_step this e results) = Throw x.
Proof.
  intros Hx. unfold BotFilter.filterLogs_step.
  change {| BotFilter.req_userAgent := userAgent e;
            BotFilter.req_ip := ip e;
            BotFilter.req_session := session e |} with (request_of e).
  destruct (BotFilter.isBot this (request_of e)) as [calls r].
  cbn [outcome snd] in Hx. subst r. reflexivity.
Qed.

Lemma filterLogs_loop_throws (this : BotFilter.t) (entries : list LogEntry) :
  forall results,
  (exists x, outcome (forEach (BotFilter.filterLogs_step this) entries results) = Throw x)
  <-> Exists (unclassifiable this) entries.
Proof.
  induction entries as [ | e entries IH]; intros results.
  - cbn. split; [intros [x H]; discriminate | intros H; inversion H].
  - rewrite Exists_cons. cbn [forEach].
    destruct (outcome (BotFilter.isBot this (request_of e))) as [d | x] eqn:Ed.
    + destruct (filterLogs_step_ok this e results d Ed) as (c1 & r1 & Hstep & _).
      rewrite Hstep. cbn [bind].
      assert (Hnot : ~ unclassifiable this e).
      { intros Hu. apply isBot_throws in Hu. destruct Hu as [y Hy]. congruence. }
      rewrite <- (IH r1).
      destruct (forEach (BotFilter.filterLogs_step this) entries r1) as [c2 r2].
      cbn [outcome snd]. tauto.
    + pose proof (filterLogs_step_throw this e results x Ed) as Hstep.
      destruct (BotFilter.filterLogs_step this e results) as [c1 r1].
      cbn [outcome snd] in Hstep. subst r1. cbn [bind outcome snd].
      split; [intros _ | intros _; eexists; reflexivity].
      left. apply isBot_throws. eexists. exact Ed.
Qed.

Lemma filterLogs_throws (this : BotFilter.t) (entries : list LogEntry) :
  (exists x, outcome (BotFilter.filterLogs this entries) = Throw x)
  <-> Exists (unclassifiable this) entries.
Proof.
  rewrite <- (filterLogs_loop_throws this entries
                {| BotFilter.total := length entries;
                   BotFilter.legitimate := [];
                   BotFilter.bots := [];
                   BotFilter.stats := {| BotFilter.botPercentage := PNum (of_Z 0);
                                         BotFilter.detectionMethods := [] |} |}).
  unfold BotFilter.filterLogs.
  destruct (forEach _ entries _) as [c [r | x]]; cbn.
  - split; intros [y H]; discriminate.
  - split; intros _; eexists; reflexivity.
Qed.

(** [filterLogs] throws, and returns nothing of the batch, exactly when one
    entry of the log is [unclassifiable]. *)
Theorem filterLogs_throws_iff (this : BotFilter.t) (entries : list LogEntry) :
  (exists x, outcome (BotFilter.filterLogs this entries) = Throw x)
  <-> Exists (unclassifiable this) entries.
Proof.
  apply filterLogs_throws.
Qed.

(** Whenever [filterLogs] returns, every entry was classified. *)
Lemma filterLogs_returns_classified (this : BotFilter.t) (entries : list LogEntry)
  (calls : list Call) (results : BotFilter.FilterResult) :
  BotFilter.filterLogs this entries = (calls, Ok results) ->
  Forall (fun e => exists d, outcome (BotFilter.isBot this (request_of e)) = Ok d)
         entries.
Proof.
  intros Hrun. apply Forall_forall. intros e Hin.
  destruct (outcome (BotFilter.isBot this (request_of e))) as [d | x] eqn:Ed;
    [exists d; reflexivity | exfalso].
  assert (Hthrows : exists y, outcome (BotFilter.filterLogs this entries) = Throw y).
  { apply filterLogs_throws. apply Exists_exists. exists e. split; [exact Hin | ].
    apply isBot_throws. eexists. exact Ed. }
  destruct Hthrows as [y Hy]. rewrite Hrun in Hy. discriminate.
Qed.

(** What C2 states of a result, for any log on which [filterLogs] returns. *)
Lemma filterLogs_returns_partition (this : BotFilter.t) (entries : list LogEntry)
  (calls : list Call) (results : BotFilter.FilterResult) :
  BotFilter.filterLogs this entries = (calls, Ok results) ->
  BotFilter.total results = length entries
  /\ BotFilter.legitimate results
     = filter (fun e => negb (classified_bot this e)) entries
  /\ map BotFilter.entry (BotFilter.bots results)
     = filter (classified_bot this) entries
  /\ Forall (fun b => outcome (BotFilter.isBot this (request_of (BotFilter.entry b)))
                      = Ok (BotFilter.botDetection b))
            (BotFilter.bots results).
Proof.
  intros Hrun.
  pose proof (filterLogs_returns_classified this entries calls results Hrun) as Hall.
  destruct (filterLogs_loop this entries
              {| BotFilter.total := length entries;
                 BotFilter.legitimate := [];
                 BotFilter.bots := [];
                 BotFilter.stats := {| BotFilter.botPercentage := PNum (of_Z 0);
                                       BotFilter.detectionMethods := [] |} |} Hall)
    as (c & r & Hloop & Ht & Hl & Hb & Hv).
  unfold BotFilter.filterLogs in Hrun. rewrite Hloop in Hrun. cbn [bind ret] in Hrun.
  inversion Hrun. subst. cbn [BotFilter.total BotFilter.legitimate BotFilter.bots] in *.
  cbn [map app] in *. specialize (Hv (Forall_nil _)). auto.
Qed.

Lemma sum_counts_obj_set (o : list (string * nat)) (k : string) :
  sum_counts (obj_set o k (match obj_get o k with
                           | Some n => n
                           | None => 0%nat
                           end + 1)%nat)
  = S (sum_counts o).
Proof.
  unfold sum_counts.
  induction o as [ | [k0 n0] o IH]; cbn [obj_set obj_get]; [reflexivity | ].
  destruct (k0 =? k); cbn [fold_right snd]; [lia | ].
  rewrite IH. lia.
Qed.

Lemma filterLogs_step_methods (this : BotFilter.t) (e : LogEntry)
  (s s' : BotFilter.FilterResult) (c : list Call) :
  BotFilter.filterLogs_step this e s = (c, Ok s') ->
  (methods_counted s -> methods_counted s')
  /\ (sum_counts (BotFilter.detectionMethods (BotFilter.stats s)) = length (BotFilter.bots s) ->
      sum_counts (BotFilter.detectionMethods (BotFilter.stats s'))
      = length (BotFilter.bots s')).
Proof.
  unfold BotFilter.filterLogs_step.
  destruct (BotFilter.isBot this _) as [c1 [d | x]]; cbn [bind]; [ | discriminate].
  destruct (BotFilter.det_isBot d); cbn [ret]; intros H; inversion H; subst; clear H;
    [ | split; intros Hs; exact Hs].
  split.
  - intros Hs m. unfold methods_counted in Hs.
    cbn [BotFilter.stats BotFilter.detectionMethods BotFilter.bots].
    set (label := to_str (or_str (BotFilter.method d) (Val "unknown"))).
    rewrite obj_get_set, existsb_app, filter_app, length_app. cbn [existsb filter].
    assert (Hm : method_is m {| BotFilter.entry := e; BotFilter.botDetection := d |}
                 = (label =? m)) by reflexivity.
    rewrite Hm. destruct (label =? m) eqn:E.
    + apply String.eqb_eq in E. subst m. rewrite orb_true_r, (Hs label).
      destruct (existsb (method_is label) (BotFilter.bots s)) eqn:Ex.
      * cbn [length]. reflexivity.
      * rewrite (filter_none _ _ Ex). reflexivity.
    + rewrite !orb_false_r. cbn [length]. rewrite Nat.add_0_r. apply Hs.
  - intros Hs. cbn [BotFilter.stats BotFilter.detectionMethods BotFilter.bots].
    rewrite sum_counts_obj_set, Hs, length_app. cbn [length]. lia.
Qed.

(** In a result of [filterLogs], [detectionMethods] holds under each method
    the number of the bot entries found by that method; its keys are among
    [user-agent], [ip-range] and [behavioral] (never [unknown]), and its
    counts add up to the number of bot entries. *)
Theorem filterLogs_detection_methods (this : BotFilter.t) (entries : list LogEntry)
  (calls : list Call) (results : BotFilter.FilterResult) :
  BotFilter.filterLogs this entries = (calls, Ok results) ->
  methods_counted results
  /\ (forall m n,
        obj_get (BotFilter.detectionMethods (BotFilter.stats results)) m = Some n ->
        In m detection_methods /\ (0 < n)%nat)
  /\ sum_counts (BotFilter.detectionMethods (BotFilter.stats results))
     = length (BotFilter.bots results).
Proof.
  intros Hrun.
  destruct (filterLogs_returns_partition this entries calls results Hrun)
    as (_ & _ & Hb & Hv).
  unfold BotFilter.filterLogs in Hrun.
  set (init := {| BotFilter.total := length entries;
                  BotFilter.legitimate := [];
                  BotFilter.bots := [];
                  BotFilter.stats := {| BotFilter.botPercentage := PNum (of_Z 0);
                                        BotFilter.detectionMethods := [] |} |}) in Hrun.
  destruct (forEach (BotFilter.filterLogs_step this) entries init) as [c [r | x]] eqn:Eloop;
    cbn [bind ret] in Hrun; [ | discriminate].
  inversion Hrun. subst. clear Hrun.
  cbn [BotFilter.stats BotFilter.detectionMethods BotFilter.bots] in *.
  assert (Hcount : methods_counted r).
  { apply (forEach_invariant (BotFilter.filterLogs_step this) methods_counted entries
             (fun x s c0 s' _ Hstep => proj1 (filterLogs_step_methods this x s s' c0 Hstep))
             init c r Eloop).
    intros m. reflexivity. }
  assert (Hsum : sum_counts (BotFilter.detectionMethods (BotFilter.stats r))
                 = length (BotFilter.bots r)).
  { apply (forEach_invariant (BotFilter.filterLogs_step this)
             (fun s => sum_counts (BotFilter.detectionMethods (BotFilter.stats s))
                       = length (BotFilter.bots s)) entries
             (fun x s c0 s' _ Hstep => proj2 (filterLogs_step_methods this x s s' c0 Hstep))
             init c r Eloop).
    reflexivity. }
  split; [exact Hcount | split; [ | exact Hsum]].
  intros m n Hget. rewrite (Hcount m) in Hget.
  destruct (existsb (method_is m) (BotFilter.bots r)) eqn:Ex; [ | discriminate].
  inversion Hget. subst n. clear Hget.
  pose proof (existsb_filter_nonempty _ _ Ex) as Hne.
  split; [ | destruct (filter (method_is m) (BotFilter.bots r));
              [congruence | cbn; lia]].
  apply existsb_exists in Ex. destruct Ex as (b & Hin & Hm).
  unfold method_is, method_label in Hm. apply String.eqb_eq in Hm.
  pose proof (proj1 (Forall_forall _ _) Hv b Hin) as Hd.
  pose proof (isBot_verdict this _ _ Hd) as Hshape.
  assert (Hbot : BotFilter.det_isBot (BotFilter.botDetection b) = true).
  { assert (Hin' : In (BotFilter.entry b) (map BotFilter.entry (BotFilter.bots r)))
      by (apply in_map; exact Hin).
    rewrite Hb in Hin'. apply filter_In in Hin'. destruct Hin' as [_ Hc].
    unfold classified_bot in Hc. rewrite Hd in Hc. exact Hc. }
  rewrite Hbot in Hshape. destruct Hshape as (_ & _ & m' & Hmeth & Hin').
  rewrite Hmeth in Hm. unfold detection_methods in Hin'. cbn in Hin'.
  destruct Hin' as [H | [H | [H | []]]]; subst m'; cbn in Hm; subst m;
    unfold detection_methods; cbn; auto.
Qed.

Lemma filter_twice {A} (f : A -> bool) (l : list A) :
  filter f (filter f l) = filter f l.
Proof.
  induction l as [ | x l IH]; cbn; [reflexivity | ].
  destruct (f x) eqn:E; cbn; rewrite ?E, IH; reflexivity.
Qed.

Lemma filter_opposite {A} (f : A -> bool) (l : list A) :
  filter f (filter (fun x => negb (f x)) l) = [].
Proof.
  induction l as [ | x l IH]; cbn; [reflexivity | ].
  destruct (f x) eqn:E; cbn; rewrite ?E; exact IH.
Qed.

(** Filtering the legitimate entries of a result again changes nothing: they
    are all legitimate, and no bot is found among them. *)
Theorem filterLogs_refilter (this : BotFilter.t) (entries : list LogEntry)
  (calls : list Call) (results : BotFilter.FilterResult) :
  BotFilter.filterLogs this entries = (calls, Ok results) ->
  exists calls' results',
    BotFilter.filterLogs this (BotFilter.legitimate results) = (calls', Ok results')
    /\ BotFilter.legitimate results' = BotFilter.legitimate results
    /\ BotFilter.bots results' = [].
Proof.
  intros Hrun.
  destruct (filterLogs_returns_partition this entries calls results Hrun)
    as (_ & Hl & _ & _).
  pose proof (filterLogs_returns_classified this entries calls results Hrun) as Hall.
  assert (Hall' : Forall (fun e => exists d,
                            outcome (BotFilter.isBot this (request_of e)) = Ok d)
                         (BotFilter.legitimate results)).
  { apply Forall_forall. intros e Hin. rewrite Hl in Hin. apply filter_In in Hin.
    exact (proj1 (Forall_forall _ _) Hall e (proj1 Hin)). }
  destruct (filterLogs_loop this (BotFilter.legitimate results)
              {| BotFilter.total := length (BotFilter.legitimate results);
                 BotFilter.legitimate := [];
                 BotFilter.bots := [];
                 BotFilter.stats := {| BotFilter.botPercentage := PNum (of_Z 0);
                                       BotFilter.detectionMethods := [] |} |} Hall')
    as (c & r & Hloop & _ & Hl' & Hb' & _).
  cbn [BotFilter.legitimate BotFilter.bots map app] in Hl', Hb'.
  unfold BotFilter.filterLogs. rewrite Hloop. cbn [bind ret].
  eexists. eexists. split; [reflexivity | ].
  cbn [BotFilter.legitimate BotFilter.bots].
  split.
  - rewrite Hl'. rewrite Hl at 1 2.
    apply (filter_twice (fun e => negb (classified_bot this e))).
  - apply (map_eq_nil BotFilter.entry). rewrite Hb', Hl. apply filter_opposite.
Qed.



(* ===================================================================== *)
(** ** More on session reconstruction *)
(* ===================================================================== *)

Lemma walk_pages (timeout : Z) (rest : list AnalyticsReconstructor.Visit) :
  forall prev start pages,
  sum_pages (AnalyticsReconstructor.walk timeout prev start pages rest)
  = (pages + length rest)%nat
  /\ ((1 <= pages)%nat ->
      Forall (fun s => (1 <= snd s)%nat)
             (AnalyticsReconstructor.walk timeout prev start pages rest)).
Proof.
  induction rest as [ | v rest IH]; intros prev start pages; cbn [AnalyticsReconstructor.walk].
  - cbn. split; [lia | intros H; constructor; [exact H | constructor]].
  - destruct (exceeds _ _).
    + destruct (IH (AnalyticsReconstructor.v_timestamp v)
                   (AnalyticsReconstructor.v_timestamp v) 1%nat) as [Hsum Hall].
      split.
      * unfold sum_pages in *. cbn [fold_right snd length]. rewrite Hsum. lia.
      * intros H. constructor; [exact H | apply Hall; lia].
    + destruct (IH (AnalyticsReconstructor.v_timestamp v) start (S pages)) as [Hsum Hall].
      split; [rewrite Hsum; cbn [length]; lia | intros H; apply Hall; lia].
Qed.

Lemma sessions_of_pages (timeout : Z) (visits : list AnalyticsReconstructor.Visit) :
  sum_pages (AnalyticsReconstructor.sessions_of timeout visits) = length visits
  /\ Forall (fun s => (1 <= snd s)%nat) (AnalyticsReconstructor.sessions_of timeout visits).
Proof.
  unfold AnalyticsReconstructor.sessions_of.
  pose proof (sort_length AnalyticsReconstructor.compare_timestamp visits) as Hlen.
  destruct (sort AnalyticsReconstructor.compare_timestamp visits) as [ | first rest].
  - split; [rewrite <- Hlen; reflexivity | constructor].
  - destruct (walk_pages timeout rest (AnalyticsReconstructor.v_timestamp first)
                (AnalyticsReconstructor.v_timestamp first) 1%nat) as [Hsum Hall].
    split; [rewrite Hsum, <- Hlen; reflexivity | apply Hall; lia].
Qed.

Lemma sum_pages_app (a b : list (option Z * nat)) :
  sum_pages (a ++ b) = (sum_pages a + sum_pages b)%nat.
Proof.
  unfold sum_pages. induction a as [ | x a IH]; cbn; [reflexivity | ].
  rewrite IH. lia.
Qed.

Lemma sum_pages_bound (sessions : list (option Z * nat)) :
  Forall (fun s => (1 <= snd s)%nat) sessions ->
  (length sessions <= sum_pages sessions)%nat.
Proof.
  unfold sum_pages. induction 1 as [ | s l Hs _ IH]; cbn; lia.
Qed.

Lemma sum_events_obj_set (o : list (string * list AnalyticsReconstructor.Visit))
  (k : string) (v : AnalyticsReconstructor.Visit) :
  sum_events (obj_set o k (match obj_get o k with
                           | Some visits => visits ++ [v]
                           | None => [v]
                           end))
  = S (sum_events o).
Proof.
  unfold sum_events.
  induction o as [ | [k0 l0] o IH]; cbn [obj_set obj_get]; [reflexivity | ].
  destruct (k0 =? k); cbn [fold_right snd].
  - rewrite length_app. cbn [length]. lia.
  - rewrite IH. lia.
Qed.

Lemma sum_events_map (groups : list (string * list AnalyticsReconstructor.Visit)) :
  fold_right (fun visits acc => (length visits + acc)%nat) 0%nat (map snd groups)
  = sum_events groups.
Proof.
  unfold sum_events. induction groups as [ | g gs IH]; cbn; [reflexivity | ].
  rewrite IH. reflexivity.
Qed.

Section SessionTotals.

Variable md5_hex : string -> string.
Variable Date_parse : string -> option Z.

Lemma group_visits_events (entries : list LogEntry) :
  sum_events (AnalyticsReconstructor.group_visits md5_hex Date_parse entries)
  = length entries.
Proof.
  induction entries as [ | e entries IH] using rev_ind; [reflexivity | ].
  rewrite group_visits_snoc, length_app. cbv zeta. cbn [length].
  set (fp := AnalyticsReconstructor._createFingerprint md5_hex (ip e) (userAgent e)).
  pose proof (sum_events_obj_set
                (AnalyticsReconstructor.group_visits md5_hex Date_parse entries)
                fp (visit_of Date_parse e)) as Hset.
  destruct (obj_get _ fp); rewrite Hset, IH; lia.
Qed.

Lemma existsb_keys {V} (o : list (string * V)) (k : string) :
  existsb (String.eqb k) (map fst o)
  = match obj_get o k with Some _ => true | None => false end.
Proof.
  induction o as [ | [k0 v0] o IH]; cbn; [reflexivity | ].
  rewrite (String.eqb_sym k k0). destruct (k0 =? k); cbn; [reflexivity | exact IH].
Qed.

(** The fingerprints that [_calculateVisitors] collects are the keys of the
    groups of [_calculateSessions]. *)
Lemma visitors_are_groups (entries : list LogEntry) :
  AnalyticsReconstructor.byFingerprint
    (AnalyticsReconstructor._calculateVisitors md5_hex entries)
  = length (AnalyticsReconstructor.group_visits md5_hex Date_parse entries).
Proof.
  unfold AnalyticsReconstructor._calculateVisitors.
  set (f := fun '(uniqueIPs, uniqueFingerprints) e =>
              (if truthy_str (ip e) then set_add uniqueIPs (to_str (ip e)) else uniqueIPs,
               set_add uniqueFingerprints
                 (AnalyticsReconstructor._createFingerprint md5_hex (ip e) (userAgent e)))).
  assert (Hfp : snd (fold_left f entries ([], []))
                = map fst (AnalyticsReconstructor.group_visits md5_hex Date_parse entries)).
  { induction entries as [ | e entries IH] using rev_ind; [reflexivity | ].
    rewrite fold_left_app, group_visits_snoc. cbv zeta. cbn [fold_left].
    destruct (fold_left f entries ([], [])) as [ips fps]. cbn [snd] in IH. subst fps.
    cbn [f snd]. unfold set_add. rewrite existsb_keys.
    destruct (obj_get _ _) eqn:E; rewrite obj_set_keys, E; reflexivity. }
  destruct (fold_left f entries ([], [])) as [ips fps]. cbn [snd] in Hfp. subst fps.
  cbn [AnalyticsReconstructor.byFingerprint]. apply length_map.
Qed.

Lemma flat_map_sessions (timeout : Z)
  (groups : list (list AnalyticsReconstructor.Visit)) :
  Forall (fun visits => visits <> []) groups ->
  sum_pages (flat_map (AnalyticsReconstructor.sessions_of timeout) groups)
  = fold_right (fun visits acc => (length visits + acc)%nat) 0%nat groups
  /\ Forall (fun s => (1 <= snd s)%nat)
            (flat_map (AnalyticsReconstructor.sessions_of timeout) groups)
  /\ (length groups
      <= length (flat_map (AnalyticsReconstructor.sessions_of timeout) groups))%nat.
Proof.
  induction 1 as [ | visits groups Hne _ IH]; cbn [flat_map fold_right length].
  - repeat split; [constructor | lia].
  - destruct IH as (Hsum & Hall & Hlen).
    destruct (sessions_of_pages timeout visits) as [Hp Hf].
    pose proof (sessions_of_nonempty timeout visits Hne) as Hs.
    rewrite sum_pages_app, Hp, Hsum, length_app.
    split; [reflexivity | split; [apply Forall_app; auto | ]].
    destruct (AnalyticsReconstructor.sessions_of timeout visits); [congruence | cbn; lia].
Qed.

Lemma sessions_pages_total (this : AnalyticsReconstructor.t)
  (entries : list LogEntry) :
  sum_pages (AnalyticsReconstructor.all_sessions md5_hex Date_parse this entries)
  = length entries
  /\ Forall (fun s => (1 <= snd s)%nat)
            (AnalyticsReconstructor.all_sessions md5_hex Date_parse this entries)
  /\ (AnalyticsReconstructor.byFingerprint
        (AnalyticsReconstructor._calculateVisitors md5_hex entries)
      <= AnalyticsReconstructor.ses_total
           (AnalyticsReconstructor._calculateSessions md5_hex Date_parse this entries)
      <= length entries)%nat.
Proof.
  set (groups := AnalyticsReconstructor.group_visits md5_hex Date_parse entries).
  assert (Hne : Forall (fun visits => visits <> []) (map snd groups)).
  { apply Forall_forall. intros visits Hin. apply in_map_iff in Hin.
    destruct Hin as ([fp v] & Hv & Hin). cbn in Hv. subst v.
    apply group_visits_spec in Hin. destruct Hin as [Hex Hvis]. subst visits.
    unfold events_of. intros H. apply map_eq_nil in H.
    exact (existsb_filter_nonempty _ _ Hex H). }
  destruct (flat_map_sessions (AnalyticsReconstructor.sessionTimeout this)
              (map snd groups) Hne) as (Hsum & Hall & Hlen).
  assert (Hev : fold_right (fun visits acc => (length visits + acc)%nat) 0%nat
                  (map snd groups) = length entries).
  { rewrite <- (group_visits_events entries). fold groups. apply sum_events_map. }
  unfold AnalyticsReconstructor._calculateSessions, AnalyticsReconstructor.all_sessions.
  cbn [AnalyticsReconstructor.ses_total]. fold groups.
  rewrite Hsum, Hev. split; [reflexivity | split; [exact Hall | ]].
  rewrite (visitors_are_groups entries). fold groups.
  rewrite length_map in Hlen. split; [exact Hlen | ].
  rewrite <- Hev, <- Hsum. apply sum_pages_bound. exact Hall.
Qed.

(** Every entry of the log is a page of exactly one session: the page
    counts of the sessions add up to the number of entries, each session has
    at least one page, and there are at least as many sessions as visitors
    and at most as many as entries, whatever the dates are. *)
Theorem sessions_cover_entries (this : AnalyticsReconstructor.t)
  (entries : list LogEntry) :
  sum_pages (AnalyticsReconstructor.all_sessions md5_hex Date_parse this entries)
  = length entries
  /\ Forall (fun s => (1 <= snd s)%nat)
            (AnalyticsReconstructor.all_sessions md5_hex Date_parse this entries)
  /\ (AnalyticsReconstructor.byFingerprint
        (AnalyticsReconstructor._calculateVisitors md5_hex entries)
      <= AnalyticsReconstructor.ses_total
           (AnalyticsReconstructor._calculateSessions md5_hex Date_parse this entries)
      <= length entries)%nat.
Proof.
  apply sessions_pages_total.
Qed.

End SessionTotals.

Lemma StronglySorted_app_inv {A} (R : A -> A -> Prop) (a b : list A) :
  StronglySorted R (a ++ b) -> StronglySorted R a /\ StronglySorted R b.
Proof.
  induction a as [ | x a IH]; cbn; intros H; [split; [constructor | exact H] | ].
  inversion H as [ | ? ? Hs Hall]; subst.
  destruct (IH Hs) as [Ha Hb]. split; [ | exact Hb].
  constructor; [exact Ha | ].
  apply Forall_app in Hall. exact (proj1 Hall).
Qed.

Lemma concat_sorted_runs (runs : list (list Z)) :
  StronglySorted Z.le (concat runs) -> Forall (StronglySorted Z.le) runs.
Proof.
  induction runs as [ | run runs IH]; cbn; intros H; constructor.
  - exact (proj1 (StronglySorted_app_inv _ _ _ H)).
  - apply IH. exact (proj2 (StronglySorted_app_inv _ _ _ H)).
Qed.

Lemma sorted_hd_le_last (run : list Z) :
  StronglySorted Z.le run -> (hd 0 run <= last run 0)%Z.
Proof.
  intros Hs. destruct run as [ | a run]; [cbn; lia | ].
  inversion Hs as [ | ? ? _ Hall]; subst. cbn [hd].
  destruct run as [ | b run]; [cbn; lia | ].
  apply (proj1 (Forall_forall _ _) Hall).
  change (last (a :: b :: run) 0%Z) with (last (b :: run) 0%Z).
  clear. revert b. induction run as [ | c run IH]; intros b; [left; reflexivity | ].
  right. apply IH.
Qed.

(** With valid dates no session has a negative duration, and a session of
    one page has duration 0. *)
Theorem sessions_durations
  (md5_hex : string -> string) (Date_parse : string -> option Z)
  (this : AnalyticsReconstructor.t) (entries : list LogEntry) :
  forallb (valid_time Date_parse) entries = true ->
  Forall (fun s => exists d, fst s = Some d /\ (0 <= d)%Z
                             /\ (snd s = 1%nat -> d = 0%Z))
         (AnalyticsReconstructor.all_sessions md5_hex Date_parse this entries).
Proof.
  intros Hvalid. apply Forall_forall. intros s Hin.
  unfold AnalyticsReconstructor.all_sessions in Hin.
  apply in_flat_map in Hin. destruct Hin as (visits & Hvis & Hs).
  apply in_map_iff in Hvis. destruct Hvis as ([fp v] & Hv & Hg). cbn in Hv. subst v.
  apply group_visits_spec in Hg. destruct Hg as [Hex Hvisits]. subst visits.
  destruct (visitor_sessions md5_hex Date_parse
              (AnalyticsReconstructor.sessionTimeout this) entries fp Hvalid Hex)
    as (times & runs & _ & Hsorted & Hconcat & Hne & _ & _ & Hsessions).
  rewrite Hsessions in Hs. apply in_map_iff in Hs. destruct Hs as (run & Hsum & Hrun).
  subst s. unfold summary. cbn [fst snd]. eexists. split; [reflexivity | ].
  rewrite <- Hconcat in Hsorted.
  pose proof (proj1 (Forall_forall _ _) (concat_sorted_runs runs Hsorted) run Hrun) as Hr.
  pose proof (sorted_hd_le_last run Hr) as Hle.
  split; [lia | ].
  intros Hone. destruct run as [ | a [ | b run]]; cbn in *; try discriminate; lia.
Qed.

Lemma sessions_durations_witness :
  Forall (fun s => exists d, fst s = Some d /\ (0 <= d)%Z
                             /\ (snd s = 1%nat -> d = 0%Z))
         (AnalyticsReconstructor.all_sessions plain_digest no_date
            reconstructor (three_events (Val "192.168.1.1") (Val chrome_ua))).
Proof.
  apply (sessions_durations plain_digest no_date reconstructor
           (three_events (Val "192.168.1.1") (Val chrome_ua))).
  reflexivity.
Defined.

Lemma sorted_perm_unique (l1 : list Z) :
  forall l2,
  StronglySorted Z.le l1 -> StronglySorted Z.le l2 -> Permutation l1 l2 -> l1 = l2.
Proof.
  induction l1 as [ | a l1 IH]; intros l2 H1 H2 Hp.
  - apply Permutation_nil in Hp. subst. reflexivity.
  - destruct l2 as [ | b l2]; [apply Permutation_sym, Permutation_nil in Hp; discriminate | ].
    inversion H1 as [ | ? ? Hs1 Hall1]; subst.
    inversion H2 as [ | ? ? Hs2 Hall2]; subst.
    assert (Hab : a = b).
    { assert (Hb : In b (a :: l1))
        by (apply (Permutation_in _ (Permutation_sym Hp)); left; reflexivity).
      assert (Ha : In a (b :: l2)) by (apply (Permutation_in _ Hp); left; reflexivity).
      destruct Hb as [Hb | Hb]; [exact Hb | ].
      destruct Ha as [Ha | Ha]; [symmetry; exact Ha | ].
      pose proof (proj1 (Forall_forall _ _) Hall1 b Hb).
      pose proof (proj1 (Forall_forall _ _) Hall2 a Ha). lia. }
    subst b. f_equal. apply IH; [exact Hs1 | exact Hs2 | ].
    exact (Permutation_cons_inv Hp).
Qed.

Lemma walk_times (timeout : Z) (s : list (Z * maybe string)) :
  forall s' prev start pages,
  map fst s = map fst s' ->
  AnalyticsReconstructor.walk timeout prev start pages (map event s)
  = AnalyticsReconstructor.walk timeout prev start pages (map event s').
Proof.
  induction s as [ | x s IH]; intros [ | x' s'] prev start pages Hm;
    try discriminate; [reflexivity | ].
  cbn [map] in Hm. inversion Hm as [[Hx Hs]].
  cbn [map AnalyticsReconstructor.walk event AnalyticsReconstructor.v_timestamp].
  rewrite Hx. destruct (exceeds _ _); [f_equal | ]; apply IH; exact Hs.
Qed.

(** The sessions of a visitor do not depend on the order in which the log
    lists the events of that visitor (with valid dates). *)
Theorem sessions_of_any_order (timeout : Z) (l l' : list (Z * maybe string)) :
  Permutation l l' ->
  AnalyticsReconstructor.sessions_of timeout (map event l)
  = AnalyticsReconstructor.sessions_of timeout (map event l').
Proof.
  intros Hp. unfold AnalyticsReconstructor.sessions_of.
  rewrite !(sort_map event AnalyticsReconstructor.compare_timestamp).
  change (fun a b : Z * maybe string =>
            AnalyticsReconstructor.compare_timestamp (event a) (event b))
    with (fun a b : Z * maybe string => Some (fst a - fst b)%Z).
  set (key := fun a b : Z * maybe string => Some (fst a - fst b)%Z).
  assert (Htimes : map fst (sort key l) = map fst (sort key l')).
  { apply sorted_perm_unique.
    - apply StronglySorted_map_fst. apply (sort_sorted (@fst Z (maybe string))).
    - apply StronglySorted_map_fst. apply (sort_sorted (@fst Z (maybe string))).
    - apply Permutation_map. rewrite !sort_perm. exact Hp. }
  destruct (sort key l) as [ | x s]; destruct (sort key l') as [ | x' s'];
    try discriminate; [reflexivity | ].
  cbn [map] in *. inversion Htimes as [[Hx Hs]].
  cbn [event AnalyticsReconstructor.v_timestamp]. rewrite Hx.
  apply walk_times. exact Hs.
Qed.

Lemma sessions_of_any_order_witness :
  AnalyticsReconstructor.sessions_of 1800000
    (map event [(2700000%Z, Val "/c"); (0%Z, Val "/a"); (600000%Z, Val "/b")])
  = AnalyticsReconstructor.sessions_of 1800000
      (map event [(0%Z, Val "/a"); (600000%Z, Val "/b"); (2700000%Z, Val "/c")]).
Proof.
  apply sessions_of_any_order.
  apply Permutation_cons_app with (l1 := [(0%Z, Val "/a"); (600000%Z, Val "/b")])
                                  (l2 := []).
  rewrite app_nil_r. apply Permutation_refl.
Defined.

(* ===================================================================== *)
(** ** More on the referrers aggregate *)
(* ===================================================================== *)

Lemma sum_data_obj_set (o : list (string * AnalyticsReconstructor.ReferrerData))
  (k : string) (v : AnalyticsReconstructor.ReferrerData) :
  (sum_data (obj_set o k v)
   + match obj_get o k with
     | Some d => AnalyticsReconstructor.count d
     | None => 0
     end
   = sum_data o + AnalyticsReconstructor.count v)%nat.
Proof.
  unfold sum_data.
  induction o as [ | [k0 d0] o IH]; cbn [obj_set obj_get fold_right snd]; [lia | ].
  destruct (k0 =? k); cbn [fold_right snd]; lia.
Qed.

Lemma Forall_obj_set {V} (Q : V -> Prop) (o : list (string * V)) (k : string) (v : V) :
  Forall (fun kv => Q (snd kv)) o -> Q v ->
  Forall (fun kv => Q (snd kv)) (obj_set o k v).
Proof.
  intros Ho Hv. induction o as [ | [k0 v0] o IH]; cbn.
  - constructor; [exact Hv | constructor].
  - inversion Ho as [ | ? ? H0 Hrest]; subst.
    destruct (k0 =? k); constructor; auto.
Qed.

Lemma obj_get_Forall {V} (Q : V -> Prop) (o : list (string * V)) (k : string) (v : V) :
  Forall (fun kv => Q (snd kv)) o -> obj_get o k = Some v -> Q v.
Proof.
  intros Ho. induction Ho as [ | [k0 v0] o H0 _ IH]; cbn; [discriminate | ].
  destruct (k0 =? k); [intros H; inversion H; subst; exact H0 | exact IH].
Qed.

Lemma set_add_length (set : list string) (x : string) :
  (length set <= length (set_add set x) <= S (length set))%nat.
Proof.
  unfold set_add. destruct (existsb _ set); [lia | ].
  rewrite length_app. cbn. lia.
Qed.

Lemma sum_visits_perm (a b : list AnalyticsReconstructor.ReferrerRow) :
  Permutation a b -> sum_visits a = sum_visits b.
Proof.
  unfold sum_visits. induction 1; cbn; lia.
Qed.

Section ReferrersTotals.

Variable md5_hex : string -> string.
Variable URL_hostname : string -> option string.

Let step := AnalyticsReconstructor.referrers_step md5_hex URL_hostname.
Let bucket := AnalyticsReconstructor.referrer_bucket URL_hostname.

Lemma referrers_step_totals (e : LogEntry)
  (o o' : list (string * AnalyticsReconstructor.ReferrerData)) (c : list Call) :
  step e o = (c, Ok o') ->
  sum_data o' = S (sum_data o)
  /\ (Forall (fun kv => visitors_within (snd kv)) o ->
      Forall (fun kv => visitors_within (snd kv)) o')
  /\ (own_keys_only o -> own_keys_only o').
Proof.
  unfold step, AnalyticsReconstructor.referrers_step. fold (bucket e).
  destruct (obj_get o (bucket e)) as [data | ] eqn:Eget.
  - cbn [ret]. intros H. inversion H. subst. clear H.
    pose proof (sum_data_obj_set o (bucket e)
                  {| AnalyticsReconstructor.count := S (AnalyticsReconstructor.count data);
                     AnalyticsReconstructor.uniqueVisitors :=
                       set_add (AnalyticsReconstructor.uniqueVisitors data)
                         (AnalyticsReconstructor._createFingerprint md5_hex
                            (ip e) (userAgent e)) |}) as Hsum.
    rewrite Eget in Hsum. cbn [AnalyticsReconstructor.count] in Hsum.
    split; [lia | split].
    + intros Ho. apply Forall_obj_set; [exact Ho | ].
      pose proof (obj_get_Forall visitors_within o _ _ Ho Eget) as Hd.
      unfold visitors_within in *.
      cbn [AnalyticsReconstructor.count AnalyticsReconstructor.uniqueVisitors].
      pose proof (set_add_length (AnalyticsReconstructor.uniqueVisitors data)
                    (AnalyticsReconstructor._createFingerprint md5_hex
                       (ip e) (userAgent e))). lia.
    + intros Hown k Hk. rewrite obj_get_set.
      destruct (bucket e =? k) eqn:E; [ | apply Hown; exact Hk].
      apply String.eqb_eq in E. subst k. rewrite (Hown _ Hk) in Eget. discriminate.
  - destruct (inherited (bucket e)) eqn:Einh; [discriminate | ].
    cbn [ret]. intros H. inversion H. subst. clear H.
    pose proof (sum_data_obj_set o (bucket e)
                  {| AnalyticsReconstructor.count := 1;
                     AnalyticsReconstructor.uniqueVisitors :=
                       [AnalyticsReconstructor._createFingerprint md5_hex
                          (ip e) (userAgent e)] |}) as Hsum.
    rewrite Eget in Hsum. cbn [AnalyticsReconstructor.count] in Hsum.
    split; [lia | split].
    + intros Ho. apply Forall_obj_set; [exact Ho | ].
      unfold visitors_within. cbn. lia.
    + intros Hown k Hk. rewrite obj_get_set.
      destruct (bucket e =? k) eqn:E; [ | apply Hown; exact Hk].
      apply String.eqb_eq in E. subst k. congruence.
Qed.

Lemma referrers_loop_totals (entries : list LogEntry) :
  forall o c o',
  forEach step entries o = (c, Ok o') ->
  sum_data o' = (sum_data o + length entries)%nat
  /\ (Forall (fun kv => visitors_within (snd kv)) o ->
      Forall (fun kv => visitors_within (snd kv)) o').
Proof.
  induction entries as [ | e entries IH]; intros o c o' Hrun.
  - cbn in Hrun. inversion Hrun. subst. cbn. split; [lia | auto].
  - cbn [forEach] in Hrun.
    destruct (step e o) as [c1 [o1 | x]] eqn:E1; cbn [bind] in Hrun; [ | discriminate].
    destruct (forEach step entries o1) as [c2 r2] eqn:E2. inversion Hrun. subst.
    destruct (referrers_step_totals e o o1 c1 E1) as (Hs1 & Hv1 & _).
    destruct (IH o1 c2 o' E2) as (Hs2 & Hv2).
    cbn [length]. split; [lia | auto].
Qed.

Lemma referrers_sums (entries : list LogEntry)
  (calls : list Call) (r : AnalyticsReconstructor.Referrers) :
  AnalyticsReconstructor._calculateReferrers md5_hex URL_hostname entries = (calls, Ok r) ->
  sum_visits (AnalyticsReconstructor.all r) = length entries
  /\ Forall (fun row => (1 <= AnalyticsReconstructor.row_uniqueVisitors row
                         <= AnalyticsReconstructor.visits row)%nat)
            (AnalyticsReconstructor.all r)
  /\ (AnalyticsReconstructor.ref_total r <= length entries)%nat
  /\ AnalyticsReconstructor.top r = firstn 10 (AnalyticsReconstructor.all r)
  /\ (length (AnalyticsReconstructor.top r) <= 10)%nat.
Proof.
  unfold AnalyticsReconstructor._calculateReferrers. fold step.
  destruct (forEach step entries []) as [c [o | x]] eqn:Eloop; cbn [bind ret];
    [ | discriminate].
  intros H. inversion H. subst. clear H.
  cbn [AnalyticsReconstructor.all AnalyticsReconstructor.ref_total
       AnalyticsReconstructor.top].
  destruct (referrers_loop_totals entries [] c o Eloop) as (Hsum & Hv).
  specialize (Hv (Forall_nil _)). cbn in Hsum.
  set (mk := fun '(referrer, data) =>
               {| AnalyticsReconstructor.row_referrer := referrer;
                  AnalyticsReconstructor.visits := AnalyticsReconstructor.count data;
                  AnalyticsReconstructor.row_uniqueVisitors :=
                    length (AnalyticsReconstructor.uniqueVisitors data) |}).
  set (rows := sort AnalyticsReconstructor.compare_visits_desc (map mk (Object_entries o))).
  assert (Hperm : Permutation rows (map mk o)).
  { unfold rows. rewrite sort_perm. apply Permutation_map, Object_entries_perm. }
  assert (Hrows : sum_visits rows = length entries).
  { rewrite (sum_visits_perm _ _ Hperm), <- Hsum. unfold sum_visits, sum_data.
    clear. induction o as [ | [k d] o IH]; cbn; [reflexivity | ]. rewrite IH. reflexivity. }
  assert (Hall : Forall (fun row => (1 <= AnalyticsReconstructor.row_uniqueVisitors row
                                     <= AnalyticsReconstructor.visits row)%nat) rows).
  { apply Forall_forall. intros row Hin. apply (Permutation_in _ Hperm) in Hin.
    apply in_map_iff in Hin. destruct Hin as ([k d] & Hmk & Hin). subst row.
    exact (proj1 (Forall_forall _ _) Hv (k, d) Hin). }
  split; [exact Hrows | split; [exact Hall | ]].
  split.
  { rewrite <- Hrows. clear - Hall. unfold sum_visits.
    induction Hall as [ | row l Hrow _ IH]; cbn; lia. }
  split; [reflexivity | ].
  change (length (firstn 10 rows) <= 10)%nat. apply firstn_le_length.
Qed.

(** In a result of [_calculateReferrers] every entry is counted once: the
    visits of the rows add up to the number of entries; a row has at least
    one unique visitor and no more unique visitors than visits; there are no
    more rows than entries, and [top] holds the first ten rows at most. *)
Theorem referrers_totals (entries : list LogEntry)
  (calls : list Call) (r : AnalyticsReconstructor.Referrers) :
  AnalyticsReconstructor._calculateReferrers md5_hex URL_hostname entries = (calls, Ok r) ->
  sum_visits (AnalyticsReconstructor.all r) = length entries
  /\ Forall (fun row => (1 <= AnalyticsReconstructor.row_uniqueVisitors row
                         <= AnalyticsReconstructor.visits row)%nat)
            (AnalyticsReconstructor.all r)
  /\ (AnalyticsReconstructor.ref_total r <= length entries)%nat
  /\ AnalyticsReconstructor.top r = firstn 10 (AnalyticsReconstructor.all r)
  /\ (length (AnalyticsReconstructor.top r) <= 10)%nat.
Proof.
  apply referrers_sums.
Qed.

Lemma referrers_loop_throws (entries : list LogEntry) :
  forall o,
  own_keys_only o ->
  (exists x, outcome (forEach step entries o) = Throw x)
  <-> Exists (fun e => inherited (bucket e) = true) entries.
Proof.
  induction entries as [ | e entries IH]; intros o Hown.
  - cbn. split; [intros [x H]; discriminate | intros H; inversion H].
  - rewrite Exists_cons. cbn [forEach].
    destruct (step e o) as [c1 [o1 | x]] eqn:E1; cbn [bind].
    + destruct (referrers_step_totals e o o1 c1 E1) as (_ & _ & Hown1).
      rewrite <- (IH o1 (Hown1 Hown)).
      assert (Hnot : inherited (bucket e) = false).
      { unfold step, AnalyticsReconstructor.referrers_step in E1. fold (bucket e) in E1.
        destruct (inherited (bucket e)) eqn:Einh; [ | reflexivity].
        rewrite (Hown _ Einh) in E1. discriminate. }
      destruct (forEach step entries o1) as [c2 r2]. cbn [outcome snd].
      rewrite Hnot. split; [intros H; right; exact H | intros [H | H]; [discriminate | exact H]].
    + cbn [outcome snd]. split; [intros _ | intros _; eexists; reflexivity].
      left. unfold step, AnalyticsReconstructor.referrers_step in E1. fold (bucket e) in E1.
      destruct (obj_get o (bucket e)); [discriminate | ].
      destruct (inherited (bucket e)); [reflexivity | discriminate].
Qed.

(** [_calculateReferrers] throws exactly when the bucket of some entry is
    the name of a member that every object inherits, as for the referer
    [constructor]. *)
Theorem referrers_throws_iff (entries : list LogEntry) :
  (exists x, outcome (AnalyticsReconstructor._calculateReferrers md5_hex URL_hostname
                        entries) = Throw x)
  <-> Exists (fun e => inherited (bucket e) = true) entries.
Proof.
  rewrite <- (referrers_loop_throws entries []); [ | intros k _; reflexivity].
  unfold AnalyticsReconstructor._calculateReferrers. fold step.
  destruct (forEach step entries []) as [c [o | x]]; cbn.
  - split; intros [y H]; discriminate.
  - split; intros _; eexists; reflexivity.
Qed.

End ReferrersTotals.

(* ===================================================================== *)
(** ** Devices and browsers *)
(* ===================================================================== *)

Lemma test_any_i_toLowerCase (alternatives : list string) (s : string) :
  test_any_i alternatives (toLowerCase s) = test_any_i alternatives s.
Proof.
  unfold test_any_i, test. cbn [source ignoreCase].
  induction alternatives as [ | a l IH]; cbn [existsb]; [reflexivity | ].
  rewrite occurs_toLowerCase, IH. reflexivity.
Qed.

Lemma count_device_sum (d : AnalyticsReconstructor.DeviceType)
  (c : AnalyticsReconstructor.DeviceCounts) :
  sum_devices (AnalyticsReconstructor.count_device d c) = S (sum_devices c).
Proof. destruct d; unfold sum_devices; cbn; lia. Qed.

Lemma devices_sum (entries : list LogEntry) :
  sum_devices (AnalyticsReconstructor.counts
                 (AnalyticsReconstructor._calculateDevices entries))
  = length entries
  /\ forall ua, AnalyticsReconstructor._detectDevice (toLowerCase ua)
                = AnalyticsReconstructor._detectDevice ua.
Proof.
  split.
  - unfold AnalyticsReconstructor._calculateDevices.
    cbn [AnalyticsReconstructor.counts].
    set (f := fun devices e =>
                AnalyticsReconstructor.count_device
                  (AnalyticsReconstructor._detectDevice
                     (toLowerCase (to_str (or_str (userAgent e) (Val ""))))) devices).
    assert (H : forall acc, sum_devices (fold_left f entries acc)
                            = (sum_devices acc + length entries)%nat).
    { induction entries as [ | e entries IH]; intros acc; cbn [fold_left length]; [lia | ].
      rewrite IH. subst f. cbv beta. rewrite count_device_sum. lia. }
    rewrite H. reflexivity.
  - intros ua. unfold AnalyticsReconstructor._detectDevice.
    rewrite !test_any_i_toLowerCase. reflexivity.
Qed.






(** None of the user agents that [getLegitimateUserAgents] lists is flagged
    by the catalog, and each is detected as the browser and device under
    which the source lists it. *)
Theorem legitimate_user_agents_pass :
  Forall (fun ua => BotFilter.isBotUserAgent BotFilter.constructor (Val ua) = false)
         BotFilter.getLegitimateUserAgents
  /\ map AnalyticsReconstructor._detectBrowser BotFilter.getLegitimateUserAgents
     = ["Chrome"; "Chrome"; "Firefox"; "Firefox"; "Safari"; "Edge"; "Safari"; "Chrome"]
  /\ map AnalyticsReconstructor._detectDevice BotFilter.getLegitimateUserAgents
     = [AnalyticsReconstructor.Desktop; AnalyticsReconstructor.Desktop;
        AnalyticsReconstructor.Desktop; AnalyticsReconstructor.Desktop;
        AnalyticsReconstructor.Desktop; AnalyticsReconstructor.Desktop;
        AnalyticsReconstructor.Mobile; AnalyticsReconstructor.Mobile].
Proof.
  split; [repeat constructor | split; vm_compute; reflexivity].
Qed.

(* ===================================================================== *)
(** ** Averages and durations *)
(* ===================================================================== *)









(* ===================================================================== *)
(** ** [processLogs]: how the parts compose *)
(* ===================================================================== *)

Section ProcessLogs.

Variable md5_hex : string -> string.
Variable Date_parse : string -> option Z.
Variable URL_hostname : string -> option string.

Let processLogs := AnalyticsReconstructor.processLogs md5_hex Date_parse URL_hostname.

(** What a result of [processLogs] is made of. *)
Lemma processLogs_returns (this : AnalyticsReconstructor.t) (entries : list LogEntry)
  (calls : list Call) (r : AnalyticsReconstructor.AnalyticsResult) :
  processLogs this entries = (calls, Ok r) ->
  exists legit nbots pct,
    match AnalyticsReconstructor.botFilter this with
    | Some filter =>
        exists c results,
          BotFilter.filterLogs filter entries = (c, Ok results)
          /\ legit = BotFilter.legitimate results
          /\ nbots = length (BotFilter.bots results)
          /\ pct = Some (BotFilter.botPercentage (BotFilter.stats results))
    | None => legit = entries /\ nbots = 0%nat /\ pct = None
    end
    /\ AnalyticsReconstructor.totalRequests (AnalyticsReconstructor.overview r)
       = length legit
    /\ AnalyticsReconstructor.totalBots (AnalyticsReconstructor.overview r) = nbots
    /\ AnalyticsReconstructor.botPercentage (AnalyticsReconstructor.overview r)
       = match pct with
         | Some p => if truthy_prim p then p else PNum (of_Z 0)
         | None => PNum (of_Z 0)
         end
    /\ AnalyticsReconstructor.visitors r
       = AnalyticsReconstructor._calculateVisitors md5_hex legit
    /\ AnalyticsReconstructor.sessions r
       = AnalyticsReconstructor._calculateSessions md5_hex Date_parse this legit
    /\ (exists c, AnalyticsReconstructor._calculateReferrers md5_hex URL_hostname legit
                  = (c, Ok (AnalyticsReconstructor.referrers r)))
    /\ AnalyticsReconstructor.devices r = AnalyticsReconstructor._calculateDevices legit
    /\ forallb (valid_time Date_parse) legit = true.
Proof.
  unfold processLogs, AnalyticsReconstructor.processLogs.
  intros Hrun.
  assert (Hrest : forall legit nbots pct c0,
            bind (c0, Ok (legit, nbots, pct))
              (fun filteredLogs =>
                 let '(legitimateEntries, bots_length, stats_botPercentage) :=
                   filteredLogs in
                 _ <- AnalyticsReconstructor.toISOString_all Date_parse legitimateEntries ;;
                 referrers <- AnalyticsReconstructor._calculateReferrers md5_hex
                                URL_hostname legitimateEntries ;;
                 ret {| AnalyticsReconstructor.overview := {|
                          AnalyticsReconstructor.totalRequests := length legitimateEntries;
                          AnalyticsReconstructor.totalBots := bots_length;
                          AnalyticsReconstructor.botPercentage :=
                            match stats_botPercentage with
                            | Some p => if truthy_prim p then p else PNum (of_Z 0)
                            | None => PNum (of_Z 0)
                            end |};
                        AnalyticsReconstructor.visitors :=
                          AnalyticsReconstructor._calculateVisitors md5_hex legitimateEntries;
                        AnalyticsReconstructor.sessions :=
                          AnalyticsReconstructor._calculateSessions md5_hex Date_parse
                            this legitimateEntries;
                        AnalyticsReconstructor.referrers := referrers;
                        AnalyticsReconstructor.devices :=
                          AnalyticsReconstructor._calculateDevices legitimateEntries |})
            = (calls, Ok r) ->
            AnalyticsReconstructor.totalRequests (AnalyticsReconstructor.overview r)
            = length legit
            /\ AnalyticsReconstructor.totalBots (AnalyticsReconstructor.overview r) = nbots
            /\ AnalyticsReconstructor.botPercentage (AnalyticsReconstructor.overview r)
               = match pct with
                 | Some p => if truthy_prim p then p else PNum (of_Z 0)
                 | None => PNum (of_Z 0)
                 end
            /\ AnalyticsReconstructor.visitors r
               = AnalyticsReconstructor._calculateVisitors md5_hex legit
            /\ AnalyticsReconstructor.sessions r
               = AnalyticsReconstructor._calculateSessions md5_hex Date_parse this legit
            /\ (exists c, AnalyticsReconstructor._calculateReferrers md5_hex URL_hostname
                            legit = (c, Ok (AnalyticsReconstructor.referrers r)))
            /\ AnalyticsReconstructor.devices r
               = AnalyticsReconstructor._calculateDevices legit
            /\ forallb (valid_time Date_parse) legit = true).
  { intros legit nbots pct c0. cbn [bind].
    unfold AnalyticsReconstructor.toISOString_all.
    change (fun e : LogEntry =>
              match AnalyticsReconstructor.getTime Date_parse (timestamp e) with
              | Some _ => true
              | None => false
              end) with (valid_time Date_parse).
    destruct (forallb (valid_time Date_parse) legit); cbn [bind ret throw];
      [ | discriminate].
    destruct (AnalyticsReconstructor._calculateReferrers md5_hex URL_hostname legit)
      as [c1 [refs | x]]; cbn [bind ret]; [ | discriminate].
    intros H. inversion H. subst. cbn. repeat split; try reflexivity.
    eexists. reflexivity. }
  destruct (AnalyticsReconstructor.botFilter this) as [filter | ].
  - destruct (BotFilter.filterLogs filter entries) as [c [results | x]] eqn:Ef;
      cbn [bind ret] in Hrun; [ | discriminate].
    exists (BotFilter.legitimate results), (length (BotFilter.bots results)),
      (Some (BotFilter.botPercentage (BotFilter.stats results))).
    split; [exists c, results; auto | ].
    exact (Hrest (BotFilter.legitimate results) (length (BotFilter.bots results))
             (Some (BotFilter.botPercentage (BotFilter.stats results))) (c ++ []) Hrun).
  - exists entries, 0%nat, None. split; [auto | ].
    exact (Hrest entries 0%nat None [] Hrun).
Qed.

(** In a result of [processLogs] with a bot filter, the legitimate requests
    and the bots together are the entries of the log; there are at least as
    many sessions as visitors and at most as many as legitimate requests;
    and the referrer rows and the device counts each add up to the
    legitimate requests. *)
Theorem processLogs_totals (filter : BotFilter.t) (entries : list LogEntry)
  (calls : list Call) (r : AnalyticsReconstructor.AnalyticsResult) :
  processLogs (AnalyticsReconstructor.constructor (Some filter)) entries = (calls, Ok r) ->
  let requests :=
    AnalyticsReconstructor.totalRequests (AnalyticsReconstructor.overview r) in
  (requests + AnalyticsReconstructor.totalBots (AnalyticsReconstructor.overview r)
   = length entries)%nat
  /\ (AnalyticsReconstructor.recommended (AnalyticsReconstructor.visitors r)
      <= AnalyticsReconstructor.ses_total (AnalyticsReconstructor.sessions r)
      <= requests)%nat
  /\ sum_visits (AnalyticsReconstructor.all (AnalyticsReconstructor.referrers r))
     = requests
  /\ sum_devices (AnalyticsReconstructor.counts (AnalyticsReconstructor.devices r))
     = requests.
Proof.
  intros Hrun. cbv zeta.
  destruct (processLogs_returns _ _ _ _ Hrun)
    as (legit & nbots & pct & Hfilter & Ht & Hb & _ & Hv & Hs & [c Hr] & Hd & _).
  cbn [AnalyticsReconstructor.constructor AnalyticsReconstructor.botFilter] in Hfilter.
  destruct Hfilter as (c0 & results & Hf & Hlegit & Hnbots & _).
  destruct (filterLogs_returns_partition filter entries c0 results Hf)
    as (_ & Hl & Hbots & _).
  rewrite Ht, Hb, Hv, Hs, Hd.
  destruct (sessions_pages_total md5_hex Date_parse
              (AnalyticsReconstructor.constructor (Some filter)) legit) as (_ & _ & Hbound).
  destruct (referrers_sums md5_hex URL_hostname legit c _ Hr) as (Hsum & _).
  split.
  { subst legit nbots. rewrite Hl, <- (length_map BotFilter.entry), Hbots.
    apply filter_split_length. }
  split.
  { revert Hbound. unfold AnalyticsReconstructor._calculateVisitors.
    destruct (fold_left _ legit ([], [])) as [uniqueIPs uniqueFingerprints].
    exact (fun H => H). }
  split; [exact Hsum | ].
  exact (proj1 (devices_sum legit)).
Qed.

Lemma forEach_no_calls {A S} (body : A -> S -> M S) (xs : list A) :
  (forall x s, calls (body x s) = []) ->
  forall s, calls (forEach body xs s) = [].
Proof.
  intros Hbody. induction xs as [ | x xs IH]; intros s; [reflexivity | ].
  cbn [forEach]. specialize (Hbody x s).
  destruct (body x s) as [c [s1 | e]]; cbn [calls fst] in Hbody; subst c; cbn [bind];
    [ | reflexivity].
  specialize (IH s1). destruct (forEach body xs s1) as [c2 r2]. exact IH.
Qed.

(** Without a bot filter [processLogs] calls no classifier: in a result all
    entries are legitimate requests, no bot is counted, and the bot
    percentage is the number 0. *)
Theorem processLogs_without_filter (entries : list LogEntry)
  (trace : list Call) (r : AnalyticsReconstructor.AnalyticsResult) :
  processLogs (AnalyticsReconstructor.constructor None) entries = (trace, Ok r) ->
  trace = []
  /\ AnalyticsReconstructor.totalRequests (AnalyticsReconstructor.overview r)
     = length entries
  /\ AnalyticsReconstructor.totalBots (AnalyticsReconstructor.overview r) = 0%nat
  /\ AnalyticsReconstructor.botPercentage (AnalyticsReconstructor.overview r)
     = PNum (of_Z 0).
Proof.
  intros Hrun.
  destruct (processLogs_returns _ _ _ _ Hrun)
    as (legit & nbots & pct & Hfilter & Ht & Hb & Hp & _).
  cbn [AnalyticsReconstructor.constructor AnalyticsReconstructor.botFilter] in Hfilter.
  destruct Hfilter as (Hl & Hn & Hpct). subst.
  split; [ | auto].
  assert (Hc : calls (processLogs (AnalyticsReconstructor.constructor None) entries) = []).
  { unfold processLogs, AnalyticsReconstructor.processLogs.
    cbn [AnalyticsReconstructor.constructor AnalyticsReconstructor.botFilter bind ret app].
    unfold AnalyticsReconstructor.toISOString_all.
    destruct (forallb _ entries); cbn [bind ret throw app]; [ | reflexivity].
    pose proof (forEach_no_calls
                  (AnalyticsReconstructor.referrers_step md5_hex URL_hostname) entries)
      as Hno.
    unfold AnalyticsReconstructor._calculateReferrers.
    assert (Hstep : forall x s,
               calls (AnalyticsReconstructor.referrers_step md5_hex URL_hostname x s) = []).
    { intros x s. unfold AnalyticsReconstructor.referrers_step.
      destruct (obj_get s _); [reflexivity | ]. destruct (inherited _); reflexivity. }
    specialize (Hno Hstep []).
    destruct (forEach _ entries []) as [c [o | x]]; cbn [calls fst] in Hno; subst c;
      reflexivity. }
  rewrite Hrun in Hc. exact Hc.
Qed.

End ProcessLogs.

(* ===================================================================== *)
(** ** The archive: time stamps and the closest snapshot *)
(* ===================================================================== *)

(** [_parseTimestamp] reads a time stamp of 14 characters as
    [YYYY-MM-DDThh:mm:ssZ], field by field, and a time stamp of 8 characters
    as midnight of its day. *)
Theorem parseTimestamp_fields (year month day hour minute second : string) :
  String.length year = 4%nat -> String.length month = 2%nat ->
  String.length day = 2%nat -> String.length hour = 2%nat ->
  String.length minute = 2%nat -> String.length second = 2%nat ->
  WaybackFetcher.timestamp_text (year ++ month ++ day ++ hour ++ minute ++ second)
  = (year ++ "-" ++ month ++ "-" ++ day ++ "T" ++ hour ++ ":" ++ minute ++ ":"
     ++ second ++ "Z")%string
  /\ WaybackFetcher.timestamp_text (year ++ month ++ day)
     = (year ++ "-" ++ month ++ "-" ++ day ++ "T00:00:00Z")%string.
Proof.
  intros Hy Hmo Hd Hh Hmi Hs.
  destruct year as [ | y1 [ | y2 [ | y3 [ | y4 [ | ? ?]]]]]; try discriminate.
  destruct month as [ | m1 [ | m2 [ | ? ?]]]; try discriminate.
  destruct day as [ | d1 [ | d2 [ | ? ?]]]; try discriminate.
  destruct hour as [ | h1 [ | h2 [ | ? ?]]]; try discriminate.
  destruct minute as [ | n1 [ | n2 [ | ? ?]]]; try discriminate.
  destruct second as [ | s1 [ | s2 [ | ? ?]]]; try discriminate.
  split; reflexivity.
Qed.

Lemma parseTimestamp_fields_witness :
  WaybackFetcher.timestamp_text "20240820103000" = "2024-08-20T10:30:00Z"
  /\ WaybackFetcher.timestamp_text "20240820" = "2024-08-20T00:00:00Z".
Proof.
  apply (parseTimestamp_fields "2024" "08" "20" "10" "30" "00"); reflexivity.
Defined.

Section Closest.

Variable Date_parse : string -> option Z.

Let step (targetDate : option Z) (closest snapshot : WaybackFetcher.Snapshot) :=
  let snapshotDate :=
    WaybackFetcher._parseTimestamp Date_parse (WaybackFetcher.snap_timestamp snapshot) in
  let closestDate :=
    WaybackFetcher._parseTimestamp Date_parse (WaybackFetcher.snap_timestamp closest) in
  let snapshotDiff := WaybackFetcher.abs_diff snapshotDate targetDate in
  let closestDiff := WaybackFetcher.abs_diff closestDate targetDate in
  if WaybackFetcher.less snapshotDiff closestDiff then snapshot else closest.

Lemma closest_fold (time : WaybackFetcher.Snapshot -> Z) (target : Z)
  (first : WaybackFetcher.Snapshot) (rest : list WaybackFetcher.Snapshot) :
  (forall s, In s (first :: rest) ->
             WaybackFetcher._parseTimestamp Date_parse (WaybackFetcher.snap_timestamp s)
             = Some (time s)) ->
  exists before s after,
    first :: rest = before ++ s :: after
    /\ fold_left (step (Some target)) rest first = s
    /\ (forall s', In s' before ->
                   (Z.abs (time s - target) < Z.abs (time s' - target))%Z)
    /\ (forall s', In s' after ->
                   (Z.abs (time s - target) <= Z.abs (time s' - target))%Z).
Proof.
  induction rest as [ | x rest IH] using rev_ind; intros Htime.
  - exists [], first, []. cbn. repeat split; intros s' [].
  - destruct IH as (before & s & after & Hsplit & Hfold & Hbefore & Hafter).
    { intros s Hin. apply Htime. cbn in Hin |- *.
      destruct Hin as [Hin | Hin]; [left; exact Hin | right; apply in_or_app; left; exact Hin]. }
    rewrite fold_left_app. cbn [fold_left]. rewrite Hfold.
    assert (Hs : WaybackFetcher._parseTimestamp Date_parse (WaybackFetcher.snap_timestamp s)
                 = Some (time s)).
    { apply Htime. change (first :: rest ++ [x]) with ((first :: rest) ++ [x]).
      rewrite Hsplit. apply in_or_app. left. apply in_or_app. right. left. reflexivity. }
    assert (Hx : WaybackFetcher._parseTimestamp Date_parse (WaybackFetcher.snap_timestamp x)
                 = Some (time x)).
    { apply Htime. right. apply in_or_app. right. left. reflexivity. }
    unfold step. cbv zeta. rewrite Hs, Hx.
    unfold WaybackFetcher.abs_diff, minus, WaybackFetcher.less.
    destruct (Z.ltb_spec (Z.abs (time x - target)) (Z.abs (time s - target))) as [Hlt | Hge].
    + exists (first :: rest), x, []. split; [reflexivity | ]. split; [reflexivity | ].
      split; [ | intros s' []].
      intros s' Hin. rewrite Hsplit in Hin. apply in_app_or in Hin.
      destruct Hin as [Hin | [<- | Hin]].
      * specialize (Hbefore s' Hin). lia.
      * exact Hlt.
      * specialize (Hafter s' Hin). lia.
    + exists before, s, (after ++ [x]).
      split.
      { change (first :: rest ++ [x]) with ((first :: rest) ++ [x]).
        rewrite Hsplit, <- app_assoc. reflexivity. }
      split; [reflexivity | ]. split; [exact Hbefore | ].
      intros s' Hin. apply in_app_or in Hin. destruct Hin as [Hin | [<- | []]].
      * exact (Hafter s' Hin).
      * exact Hge.
Qed.

(** Of snapshots with valid time stamps [_findClosestSnapshot] returns one
    whose time is closest to the target date, and of several such the first
    in the list: every snapshot before it is strictly farther from the
    target, every snapshot after it at least as far. *)
Theorem findClosestSnapshot_closest (time : WaybackFetcher.Snapshot -> Z) (target : Z)
  (snapshots : list WaybackFetcher.Snapshot) :
  snapshots <> [] ->
  (forall s, In s snapshots ->
             WaybackFetcher._parseTimestamp Date_parse (WaybackFetcher.snap_timestamp s)
             = Some (time s)) ->
  exists before s after,
    snapshots = before ++ s :: after
    /\ WaybackFetcher._findClosestSnapshot Date_parse snapshots (Some target) = Some s
    /\ (forall s', In s' before ->
                   (Z.abs (time s - target) < Z.abs (time s' - target))%Z)
    /\ (forall s', In s' after ->
                   (Z.abs (time s - target) <= Z.abs (time s' - target))%Z).
Proof.
  intros Hne Htime. destruct snapshots as [ | first rest]; [contradiction | ].
  destruct (closest_fold time target first rest Htime)
    as (before & s & after & Hsplit & Hfold & Hbefore & Hafter).
  exists before, s, after. repeat split; try assumption.
  unfold WaybackFetcher._findClosestSnapshot. f_equal. exact Hfold.
Qed.

(** When the time stamp of the first snapshot is no date, or the target is
    no date, [_findClosestSnapshot] returns the first snapshot, whatever the
    others are; and it returns [null] only for an empty list. *)
Theorem findClosestSnapshot_invalid_first (targetDate : option Z)
  (first : WaybackFetcher.Snapshot) (rest : list WaybackFetcher.Snapshot) :
  WaybackFetcher._parseTimestamp Date_parse (WaybackFetcher.snap_timestamp first) = None
  \/ targetDate = None ->
  WaybackFetcher._findClosestSnapshot Date_parse (first :: rest) targetDate = Some first
  /\ forall snapshots,
       WaybackFetcher._findClosestSnapshot Date_parse snapshots targetDate = None
       <-> snapshots = [].
Proof.
  intros Hinvalid. split.
  - unfold WaybackFetcher._findClosestSnapshot. f_equal.
    induction rest as [ | x rest IH]; [reflexivity | ].
    cbn [fold_left].
    replace (WaybackFetcher.less _ _) with false; [exact IH | ].
    destruct Hinvalid as [Hfirst | Htarget].
    + rewrite Hfirst. cbn.
      destruct (WaybackFetcher.abs_diff _ targetDate); reflexivity.
    + subst targetDate. unfold WaybackFetcher.abs_diff, minus.
      destruct (WaybackFetcher._parseTimestamp Date_parse (WaybackFetcher.snap_timestamp x));
        reflexivity.
  - intros snapshots. destruct snapshots; cbn; split; congruence.
Qed.

End Closest.

Lemma findClosestSnapshot_closest_witness :
  WaybackFetcher._findClosestSnapshot date_number year_snapshots (Some 20240701%Z)
  = Some (snapshot_at "20240610").
Proof.
  destruct (findClosestSnapshot_closest date_number snapshot_day 20240701%Z year_snapshots)
    as (before & s & after & Hsplit & Hrun & _).
  - discriminate.
  - intros s [<- | [<- | [<- | []]]]; reflexivity.
  - rewrite Hrun. vm_compute in Hrun. exact (eq_sym Hrun).
Defined.

Lemma findClosestSnapshot_invalid_first_witness :
  WaybackFetcher._findClosestSnapshot date_number
    (snapshot_at "unknown" :: year_snapshots) (Some 20240701%Z)
  = Some (snapshot_at "unknown").
Proof.
  apply (findClosestSnapshot_invalid_first date_number (Some 20240701%Z)
           (snapshot_at "unknown") year_snapshots).
  left. reflexivity.
Defined.

(* ===================================================================== *)
(** ** The properties on the sample data *)
(* ===================================================================== *)

Lemma analyzeBehavior_bounds_witness :
  exists indicators,
    BotFilter.analyzeBehavior BotFilter.constructor fast_session = Ok indicators
    /\ (0 <= BotFilter.ind_confidence indicators <= 135)%Z
    /\ (length (BotFilter.ind_reasons indicators) <= 7)%nat
    /\ (BotFilter.ind_isBot indicators = true
        <-> (50 <= BotFilter.ind_confidence indicators)%Z)
    /\ (BotFilter.ind_isBot indicators = true ->
        (2 <= length (BotFilter.ind_reasons indicators))%nat).
Proof.
  destruct (BotFilter.analyzeBehavior BotFilter.constructor fast_session)
    as [indicators | x] eqn:Hrun.
  - exists indicators. split; [reflexivity | ].
    exact (analyzeBehavior_bounds BotFilter.constructor fast_session indicators Hrun).
  - vm_compute in Hrun. discriminate Hrun.
Defined.

Lemma isBot_verdict_shape_witness :
  let request := {| BotFilter.req_userAgent := Val chrome_ua;
                    BotFilter.req_ip := Val "192.168.1.1";
                    BotFilter.req_session := Val fast_session |} in
  exists d,
    outcome (BotFilter.isBot BotFilter.constructor request) = Ok d
    /\ BotFilter.det_isBot d = true
    /\ (50 <= BotFilter.confidence d <= 135)%Z
    /\ BotFilter.reasons d <> []
    /\ exists m, BotFilter.method d = Val m /\ In m detection_methods.
Proof.
  intros request.
  destruct (outcome (BotFilter.isBot BotFilter.constructor request)) as [d | x] eqn:Hrun.
  - exists d. split; [reflexivity | ].
    pose proof (isBot_verdict_shape BotFilter.constructor request d Hrun) as Hshape.
    vm_compute in Hrun. injection Hrun as <-.
    split; [reflexivity | exact Hshape].
  - vm_compute in Hrun. discriminate Hrun.
Defined.

Lemma filterLogs_detection_methods_witness :
  exists calls results,
    BotFilter.filterLogs BotFilter.constructor test_log = (calls, Ok results)
    /\ methods_counted results
    /\ sum_counts (BotFilter.detectionMethods (BotFilter.stats results))
       = length (BotFilter.bots results).
Proof.
  destruct (BotFilter.filterLogs BotFilter.constructor test_log)
    as [calls [results | x]] eqn:Hrun.
  - exists calls, results. split; [reflexivity | ].
    destruct (filterLogs_detection_methods BotFilter.constructor test_log calls results Hrun)
      as (Hcounted & _ & Hsum).
    split; assumption.
  - vm_compute in Hrun. discriminate Hrun.
Defined.

Lemma filterLogs_refilter_witness :
  exists calls results calls' results',
    BotFilter.filterLogs BotFilter.constructor test_log = (calls, Ok results)
    /\ BotFilter.filterLogs BotFilter.constructor (BotFilter.legitimate results)
       = (calls', Ok results')
    /\ BotFilter.legitimate results' = BotFilter.legitimate results
    /\ BotFilter.bots results' = [].
Proof.
  destruct (BotFilter.filterLogs BotFilter.constructor test_log)
    as [calls [results | x]] eqn:Hrun.
  - destruct (filterLogs_refilter BotFilter.constructor test_log calls results Hrun)
      as (calls' & results' & Hagain & Hsame & Hnone).
    exists calls, results, calls', results'. auto.
  - vm_compute in Hrun. discriminate Hrun.
Defined.


Lemma referrers_totals_witness :
  exists calls r,
    AnalyticsReconstructor._calculateReferrers plain_digest no_hostname referer_log
    = (calls, Ok r)
    /\ sum_visits (AnalyticsReconstructor.all r) = 3%nat
    /\ (AnalyticsReconstructor.ref_total r <= 3)%nat.
Proof.
  destruct (AnalyticsReconstructor._calculateReferrers plain_digest no_hostname referer_log)
    as [calls [r | x]] eqn:Hrun.
  - exists calls, r. split; [reflexivity | ].
    destruct (referrers_totals plain_digest no_hostname referer_log calls r Hrun)
      as (Hsum & _ & Htotal & _).
    split; assumption.
  - vm_compute in Hrun. discriminate Hrun.
Defined.

Lemma processLogs_totals_witness :
  exists calls r,
    AnalyticsReconstructor.processLogs plain_digest date_number no_hostname
      (AnalyticsReconstructor.constructor (Some BotFilter.constructor)) test_log
    = (calls, Ok r)
    /\ (AnalyticsReconstructor.totalRequests (AnalyticsReconstructor.overview r)
        + AnalyticsReconstructor.totalBots (AnalyticsReconstructor.overview r) = 3)%nat
    /\ sum_visits (AnalyticsReconstructor.all (AnalyticsReconstructor.referrers r))
       = AnalyticsReconstructor.totalRequests (AnalyticsReconstructor.overview r).
Proof.
  destruct (AnalyticsReconstructor.processLogs plain_digest date_number no_hostname
              (AnalyticsReconstructor.constructor (Some BotFilter.constructor)) test_log)
    as [calls [r | x]] eqn:Hrun.
  - exists calls, r. split; [reflexivity | ].
    destruct (processLogs_totals plain_digest date_number no_hostname
                BotFilter.constructor test_log calls r Hrun)
      as (Hall & _ & Hvisits & _).
    split; assumption.
  - vm_compute in Hrun. discriminate Hrun.
Defined.

Lemma processLogs_without_filter_witness :
  exists r,
    AnalyticsReconstructor.processLogs plain_digest date_number no_hostname
      (AnalyticsReconstructor.constructor None) test_log
    = ([], Ok r)
    /\ AnalyticsReconstructor.totalRequests (AnalyticsReconstructor.overview r) = 3%nat
    /\ AnalyticsReconstructor.totalBots (AnalyticsReconstructor.overview r) = 0%nat
    /\ AnalyticsReconstructor.botPercentage (AnalyticsReconstructor.overview r)
       = PNum (of_Z 0).
Proof.
  destruct (AnalyticsReconstructor.processLogs plain_digest date_number no_hostname
              (AnalyticsReconstructor.constructor None) test_log)
    as [calls [r | x]] eqn:Hrun.
  - destruct (processLogs_without_filter plain_digest date_number no_hostname
                test_log calls r Hrun)
      as (Hcalls & Hrequests & Hbots & Hpct).
    exists r. subst calls. auto.
  - vm_compute in Hrun. discriminate Hrun.
Defined.
